(** * galpy.potential_src.Potential: the Potential base class and the
      evaluate* composition functions

    A shallow embedding of [galpy/potential_src/Potential.py].

    Numbers.  Python floats (and the numpy.float64 returned by [nu.fabs])
    are IEEE-754 doubles, and the class is embedded twice.

    [Module Double] has it on the kernel's binary64 floats, with the
    rounding, the overflow, the signed zeros, [inf] and [nan] of the
    machine, and with Python's conversion of an integer.  What is said of
    [normalize] and of the value of [phiforce] turns on this arithmetic
    and is proved there, in [Module DoubleFacts].

    The rest of the file, on which superposition, the errors and the grids
    are proved, keeps [inf] and [nan] (numpy's division yields them on a
    zero divisor instead of raising) and takes a finite value for an exact
    rational.  Its theorems are about which call is made and which
    exception leaves which function; a sum or a product they name is the
    one the code computes, and of the arithmetic they use [1.*x = x],
    [0.+x = x] and [x*0. = 0.] for a finite [x], which doubles satisfy up
    to the sign of a zero.

    Exceptions.  A Python call either returns a value or raises; the
    embedding returns a [res], and [try ... except AttributeError] is a
    handler on it. *)

From Stdlib Require Import QArith Qcanon Qcabs Bool List String.
From Stdlib Require Floats.
Import ListNotations.

(* ================================================================== *)
(** ** Floats *)

Module Float.

Local Open Scope Qc_scope.

Inductive pyfloat : Type :=
| Fin (q : Qc)          (* a finite value *)
| Inf (neg : bool)      (* +inf when [neg = false], -inf otherwise *)
| NaN.

Definition zero : pyfloat := Fin 0.
Definition one : pyfloat := Fin 1.

(** Sign and zero tests on the finite part. *)
Definition Qc_is_zero (q : Qc) : bool :=
  match q ?= 0 with Eq => true | _ => false end.

Definition Qc_is_neg (q : Qc) : bool :=
  match q ?= 0 with Lt => true | _ => false end.

(** [x * y] *)
Definition fmul (x y : pyfloat) : pyfloat :=
  match x, y with
  | NaN, _ | _, NaN => NaN
  | Fin a, Fin b => Fin (a * b)
  | Inf s, Inf t => Inf (xorb s t)
  | Inf s, Fin b => if Qc_is_zero b then NaN else Inf (xorb s (Qc_is_neg b))
  | Fin a, Inf t => if Qc_is_zero a then NaN else Inf (xorb (Qc_is_neg a) t)
  end.

(** [x + y] *)
Definition fadd (x y : pyfloat) : pyfloat :=
  match x, y with
  | NaN, _ | _, NaN => NaN
  | Fin a, Fin b => Fin (a + b)
  | Inf s, Inf t => if Bool.eqb s t then Inf s else NaN
  | Inf s, Fin _ => Inf s
  | Fin _, Inf t => Inf t
  end.

(** [x / y] with numpy's semantics: a zero divisor gives [inf] ([nan] for
    [0/0]) and a warning, never an exception. *)
Definition fdiv (x y : pyfloat) : pyfloat :=
  match x, y with
  | NaN, _ | _, NaN => NaN
  | Fin a, Fin b =>
      if Qc_is_zero b
      then (if Qc_is_zero a then NaN else Inf (Qc_is_neg a))
      else Fin (a / b)
  | Fin _, Inf _ => Fin 0
  | Inf s, Fin b => Inf (xorb s (Qc_is_neg b))
  | Inf _, Inf _ => NaN
  end.

(** [nu.fabs x] *)
Definition fabs (x : pyfloat) : pyfloat :=
  match x with
  | Fin a => Fin (Qcabs a)
  | Inf _ => Inf false
  | NaN => NaN
  end.

Definition is_finite (x : pyfloat) : bool :=
  match x with Fin _ => true | _ => false end.

End Float.
Export Float.

(* ================================================================== *)
(** ** Exceptions *)

Inductive exn : Type :=
| AttributeError
| TypeError
| OverflowError
| PotentialError (value : string).   (* class PotentialError(Exception) *)

Inductive res (A : Type) : Type :=
| Ok (a : A)
| Raise (e : exn).

Arguments Ok {A} a.
Arguments Raise {A} e.

Definition bind {A B : Type} (m : res A) (k : A -> res B) : res B :=
  match m with
  | Ok a => k a
  | Raise e => Raise e
  end.

Notation "x <- m ;; k" := (bind m (fun x => k))
  (at level 61, m at next level, right associativity).

(** [try: body  except AttributeError: handler] *)
Definition try_except_AttributeError {A : Type} (body handler : res A) : res A :=
  match body with
  | Raise AttributeError => handler
  | _ => body
  end.

Definition raises {A : Type} (m : res A) : bool :=
  match m with Ok _ => false | Raise _ => true end.

(* ================================================================== *)
(** ** The Potential class *)

(** The positional arguments [*args] handed through to the raw functions:
    [(R,z)] or [(R,z,phi)]. *)
Record Args : Type := mkArgs {
  arg_R : pyfloat;
  arg_z : pyfloat;
  arg_phi : option pyfloat
}.

(** A raw function of a concrete potential: [_evaluate(self,R,z,phi)] and
    the like.  The concrete potentials live in other files of the package;
    here they are arbitrary functions returning a scalar. *)
Definition raw : Type := Args -> pyfloat.

(** What a subclass of [Potential] defines.  [None] is a method the
    subclass does not define; for [_phiforce] that means the method is
    inherited from [Potential]. *)
Record Variant : Type := mkVariant {
  _evaluate : option raw;
  _Rforce : option raw;
  _zforce : option raw;
  _dens : option raw;
  _phiforce : option raw
}.

(** An instance: its class and the attributes [__init__] sets. *)
Record Potential : Type := mkPotential {
  variant : Variant;
  _amp : pyfloat;
  dim : nat;
  isRZ : bool;
  isNonAxi : bool
}.

(** [Potential.__init__(self,amp=1.)] *)
Definition __init__ (v : Variant) (amp : option pyfloat) : Potential :=
  {| variant := v;
     _amp := match amp with Some a => a | None => one end;
     dim := 3;
     isRZ := true;
     isNonAxi := false |}.

(** [Potential._phiforce(self,*args)]: [return 0.] *)
Definition Potential__phiforce : raw := fun _ => zero.

(** Attribute lookup [self._evaluate] and the like: AttributeError when
    the class does not define the method. *)
Definition getattr (slot : option raw) : res raw :=
  match slot with
  | Some f => Ok f
  | None => Raise AttributeError
  end.

(** [self._phiforce] always resolves: to the subclass's method when it
    defines one, to [Potential._phiforce] otherwise. *)
Definition getattr__phiforce (self : Potential) : res raw :=
  match _phiforce (variant self) with
  | Some f => Ok f
  | None => Ok Potential__phiforce
  end.

(** [Potential.__call__(self,*args)] *)
Definition __call__ (self : Potential) (args : Args) : res pyfloat :=
  try_except_AttributeError
    (f <- getattr (_evaluate (variant self)) ;;
     Ok (fmul (_amp self) (f args)))
    (Raise (PotentialError
       "'_evaluate' function not implemented for this potential")).

(** [Potential.Rforce(self,*args)] *)
Definition Rforce (self : Potential) (args : Args) : res pyfloat :=
  try_except_AttributeError
    (f <- getattr (_Rforce (variant self)) ;;
     Ok (fmul (_amp self) (f args)))
    (Raise (PotentialError
       "'_Rforce' function not implemented for this potential")).

(** [Potential.zforce(self,*args)] *)
Definition zforce (self : Potential) (args : Args) : res pyfloat :=
  try_except_AttributeError
    (f <- getattr (_zforce (variant self)) ;;
     Ok (fmul (_amp self) (f args)))
    (Raise (PotentialError
       "'_zforce' function not implemented for this potential")).

(** [Potential.dens(self,*args)] *)
Definition dens (self : Potential) (args : Args) : res pyfloat :=
  try_except_AttributeError
    (f <- getattr (_dens (variant self)) ;;
     Ok (fmul (_amp self) (f args)))
    (Raise (PotentialError
       "'_dens' function not implemented for this potential")).

(** [Potential.phiforce(self,*args)] *)
Definition phiforce (self : Potential) (args : Args) : res pyfloat :=
  try_except_AttributeError
    (f <- getattr__phiforce self ;;
     Ok (fmul (_amp self) (f args)))
    (Ok zero).

(** Numbers a caller may pass as [norm]. *)
Inductive pynumber : Type :=
| PyBool (b : bool)
| PyInt (n : Z)
| PyFloat (x : pyfloat).

(** The value [(-1)^s * m * 2^e] of a finite double. *)
Definition Qc_of_finite (s : bool) (m : positive) (e : Z) : Qc :=
  Q2Qc ((if s then -1 else 1) * inject_Z (Zpos m) * Qpower 2 e).

(** The conversion of a Python integer to a float: the nearest double,
    ties to even, and [OverflowError] when that is beyond the largest
    double (from [2**1024 - 2**970] on). *)
Definition float_of_int (n : Z) : res pyfloat :=
  match SpecFloat.binary_normalize FloatOps.prec FloatOps.emax n 0 false with
  | SpecFloat.S754_zero _ => Ok zero
  | SpecFloat.S754_finite s m e => Ok (Fin (Qc_of_finite s m e))
  | SpecFloat.S754_infinity _ => Raise OverflowError
  | SpecFloat.S754_nan => Ok NaN
  end.

(** The float a number stands for in [norm/nu.fabs(...)]: [True] is 1. *)
Definition to_float (n : pynumber) : res pyfloat :=
  match n with
  | PyBool true => Ok one
  | PyBool false => Ok zero
  | PyInt n => float_of_int n
  | PyFloat x => Ok x
  end.

Definition set_amp (self : Potential) (amp : pyfloat) : Potential :=
  {| variant := variant self;
     _amp := amp;
     dim := dim self;
     isRZ := isRZ self;
     isNonAxi := isNonAxi self |}.

(** [Potential.normalize(self,norm)]:
    [self._amp*= norm/nu.fabs(self.Rforce(1.,0.))].
    [self.Rforce(1.,0.)] is called first and may raise.  [nu.fabs] returns
    a numpy.float64, so the division is numpy's [fdiv] whatever the Python
    type of [norm], which is converted to a float.  The method mutates
    [self]; here the instance after the call is returned. *)
Definition normalize (self : Potential) (norm : pynumber) : res Potential :=
  F <- Rforce self (mkArgs one zero None) ;;
  f <- to_float norm ;;
  Ok (set_amp self (fmul (_amp self) (fdiv f (fabs F)))).

(* ================================================================== *)
(** ** The composition functions *)

(** An object of another class, by what the composition functions may
    ask of it: the call [pot(R,z)] and the four methods.  A field is
    [None] when the object is not callable, or has no attribute of that
    name. *)
Record Object : Type := mkObject {
  obj_call : option (Args -> res pyfloat);
  obj_dens : option (Args -> res pyfloat);
  obj_Rforce : option (Args -> res pyfloat);
  obj_phiforce : option (Args -> res pyfloat);
  obj_zforce : option (Args -> res pyfloat)
}.

(** The Python values a caller may pass as [Pot]. *)
#[warnings="-register-all"]
Inductive PyObj : Type :=
| PyPotential (P : Potential)   (* an instance of Potential or a subclass *)
| PyList (l : list PyObj)       (* a list *)
| PyTuple (l : list PyObj)      (* a tuple *)
| PyStr (s : string)
| PyNum (n : pynumber)
| PyNone
| PyObject (x : Object).        (* an instance of any other class *)

(** [isinstance(Pot,list)] *)
Definition isinstance_list (Pot : PyObj) : bool :=
  match Pot with PyList _ => true | _ => false end.

(** [isinstance(Pot,Potential)] *)
Definition isinstance_Potential (Pot : PyObj) : bool :=
  match Pot with PyPotential _ => true | _ => false end.

(** The values that are plain data: numbers, strings, [None], tuples and
    lists.  None of them is callable and none has an attribute [dens],
    [Rforce], [phiforce] or [zforce]. *)
Definition is_plain_data (pot : PyObj) : bool :=
  match pot with
  | PyPotential _ | PyObject _ => false
  | _ => true
  end.

(** Calling [pot] on the arguments.  The code does not test the class of
    [pot]: whatever is callable is called, and calling plain data is a
    [TypeError]. *)
Definition py_call (pot : PyObj) (args : Args) : res pyfloat :=
  match pot with
  | PyPotential P => __call__ P args
  | PyObject x =>
      match obj_call x with
      | Some f => f args
      | None => Raise TypeError
      end
  | _ => Raise TypeError
  end.

(** The method call [pot.dens], [pot.Rforce] and the like on the
    arguments: [m] is the method of a Potential, [attr] the attribute of
    that name of another object.  A missing attribute is an
    [AttributeError]. *)
Definition py_method (m : Potential -> Args -> res pyfloat)
    (attr : Object -> option (Args -> res pyfloat))
    (pot : PyObj) (args : Args) : res pyfloat :=
  match pot with
  | PyPotential P => m P args
  | PyObject x =>
      match attr x with
      | Some f => f args
      | None => Raise AttributeError
      end
  | _ => Raise AttributeError
  end.

(** The loop [for pot in Pot: sum+= term(pot)], entered with the running
    [sum]; an exception leaves the loop. *)
Fixpoint for_sum (term : PyObj -> res pyfloat) (Pot : list PyObj)
    (sum : pyfloat) : res pyfloat :=
  match Pot with
  | [] => Ok sum
  | pot :: rest =>
      v <- term pot ;;
      for_sum term rest (fadd sum v)
  end.

(** In each function the variadic [*args] is [(R,z,Pot)] or
    [(R,z,phi,Pot)]; [hasphi] is [phi] being [Some]. *)

Definition evaluatePotentials (R z : pyfloat) (phi : option pyfloat)
    (Pot : PyObj) : res pyfloat :=
  let args := mkArgs R z phi in
  match Pot with
  | PyList l => for_sum (fun pot => py_call pot args) l zero
  | PyPotential P => __call__ P args
  | _ => Raise (PotentialError
      "Input to 'evaluatePotentials' is neither a Potential-instance or a list of such instances")
  end.

Definition evaluateDensities (R z : pyfloat) (phi : option pyfloat)
    (Pot : PyObj) : res pyfloat :=
  let args := mkArgs R z phi in
  match Pot with
  | PyList l => for_sum (fun pot => py_method dens obj_dens pot args) l zero
  | PyPotential P => dens P args
  | _ => Raise (PotentialError
      "Input to 'evaluateDensities' is neither a Potential-instance or a list of such instances")
  end.

Definition evaluateRforces (R z : pyfloat) (phi : option pyfloat)
    (Pot : PyObj) : res pyfloat :=
  let args := mkArgs R z phi in
  match Pot with
  | PyList l => for_sum (fun pot => py_method Rforce obj_Rforce pot args) l zero
  | PyPotential P => Rforce P args
  | _ => Raise (PotentialError
      "Input to 'evaluateRforces' is neither a Potential-instance or a list of such instances")
  end.

Definition evaluatephiforces (R z : pyfloat) (phi : option pyfloat)
    (Pot : PyObj) : res pyfloat :=
  let args := mkArgs R z phi in
  match Pot with
  | PyList l => for_sum (fun pot => py_method phiforce obj_phiforce pot args) l zero
  | PyPotential P => phiforce P args
  | _ => Raise (PotentialError
      "Input to 'evaluatephiforces' is neither a Potential-instance or a list of such instances")
  end.

Definition evaluatezforces (R z : pyfloat) (phi : option pyfloat)
    (Pot : PyObj) : res pyfloat :=
  let args := mkArgs R z phi in
  match Pot with
  | PyList l => for_sum (fun pot => py_method zforce obj_zforce pot args) l zero
  | PyPotential P => zforce P args
  | _ => Raise (PotentialError
      "Input to 'evaluatezforces' is neither a Potential-instance or a list of such instances")
  end.

(** The error each function raises on an input of the wrong kind; [name]
    is the function's own name. *)
Definition input_error (name : string) : exn :=
  PotentialError
    ("Input to '" ++ name ++
     "' is neither a Potential-instance or a list of such instances").

(* ================================================================== *)
(** ** The five operations, side by side *)

(** The methods and the composition functions come in five parallel
    copies.  [op] names the copy, so that a property of all five is one
    statement. *)
Inductive op : Type :=
| OpEvaluate | OpDens | OpRforce | OpPhiforce | OpZforce.

(** The raw function of the subclass an operation relies on. *)
Definition raw_of (o : op) (v : Variant) : option raw :=
  match o with
  | OpEvaluate => _evaluate v
  | OpDens => _dens v
  | OpRforce => _Rforce v
  | OpPhiforce => _phiforce v
  | OpZforce => _zforce v
  end.

(** The method of [Potential]. *)
Definition method_of (o : op) : Potential -> Args -> res pyfloat :=
  match o with
  | OpEvaluate => __call__
  | OpDens => dens
  | OpRforce => Rforce
  | OpPhiforce => phiforce
  | OpZforce => zforce
  end.

(** The composition function. *)
(** The attribute of another object that the composition function looks
    up; [evaluatePotentials] calls the object itself. *)
Definition attr_of (o : op) : Object -> option (Args -> res pyfloat) :=
  match o with
  | OpEvaluate => obj_call
  | OpDens => obj_dens
  | OpRforce => obj_Rforce
  | OpPhiforce => obj_phiforce
  | OpZforce => obj_zforce
  end.

Definition compose_of (o : op) :
    pyfloat -> pyfloat -> option pyfloat -> PyObj -> res pyfloat :=
  match o with
  | OpEvaluate => evaluatePotentials
  | OpDens => evaluateDensities
  | OpRforce => evaluateRforces
  | OpPhiforce => evaluatephiforces
  | OpZforce => evaluatezforces
  end.

Definition name_of (o : op) : string :=
  match o with
  | OpEvaluate => "evaluatePotentials"
  | OpDens => "evaluateDensities"
  | OpRforce => "evaluateRforces"
  | OpPhiforce => "evaluatephiforces"
  | OpZforce => "evaluatezforces"
  end.

Definition raw_name_of (o : op) : string :=
  match o with
  | OpEvaluate => "_evaluate"
  | OpDens => "_dens"
  | OpRforce => "_Rforce"
  | OpPhiforce => "_phiforce"
  | OpZforce => "_zforce"
  end.

Definition not_implemented (o : op) : exn :=
  PotentialError
    ("'" ++ raw_name_of o ++ "' function not implemented for this potential").

(** [phiforce] is the one operation that needs no raw function. *)
Definition needs_raw (o : op) : bool :=
  match o with OpPhiforce => false | _ => true end.

(** The raw function an operation ends up calling, if any: the subclass's,
    or for [phiforce] the inherited [Potential._phiforce]. *)
Definition resolved_raw (o : op) (v : Variant) : option raw :=
  match o, raw_of o v with
  | _, Some f => Some f
  | OpPhiforce, None => Some Potential__phiforce
  | _, None => None
  end.

Definition supports (o : op) (v : Variant) : bool :=
  match resolved_raw o v with Some _ => true | None => false end.

(** What a composition function does to one element of the list. *)
Definition term_of (o : op) (args : Args) (pot : PyObj) : res pyfloat :=
  match o with
  | OpEvaluate => py_call pot args
  | _ => py_method (method_of o) (attr_of o) pot args
  end.

(* ================================================================== *)
(** ** Sample potentials *)

Definition float_of_Z (n : Z) : pyfloat := Fin (Q2Qc (inject_Z n)).

(** The reference point of [normalize]: the call [self.Rforce(1.,0.)]. *)
Definition ref_point : Args := mkArgs one zero None.

(** A point mass seen in the plane: potential [-1/R], radial force
    [-1/R^2], no vertical force, no density function, axisymmetric. *)
Definition point_mass : Variant :=
  {| _evaluate := Some (fun a => fdiv (float_of_Z (-1)) (arg_R a));
     _Rforce :=
       Some (fun a => fdiv (float_of_Z (-1)) (fmul (arg_R a) (arg_R a)));
     _zforce := Some (fun _ => zero);
     _dens := None;
     _phiforce := None |}.

(** A constant potential: it exerts no force anywhere. *)
Definition constant_potential : Variant :=
  {| _evaluate := Some (fun _ => one);
     _Rforce := Some (fun _ => zero);
     _zforce := Some (fun _ => zero);
     _dens := Some (fun _ => zero);
     _phiforce := None |}.

(** A subclass that defines nothing. *)
Definition bare : Variant :=
  {| _evaluate := None; _Rforce := None; _zforce := None;
     _dens := None; _phiforce := None |}.

From Stdlib Require Import Permutation Arith Lia.

(* ================================================================== *)
(** ** More of the float model *)

(** [-x] *)
Definition fneg (x : pyfloat) : pyfloat :=
  match x with
  | Fin a => Fin (Qcopp a)
  | Inf s => Inf (negb s)
  | NaN => NaN
  end.

(** [x - y] *)
Definition fsub (x y : pyfloat) : pyfloat := fadd x (fneg y).

Definition float_of_nat (n : nat) : pyfloat := float_of_Z (Z.of_nat n).

(* ================================================================== *)
(** ** The grids of plot and plotPotentials *)

(** [Potential.plot] and [plotPotentials] first obtain three arrays, the
    grid [potRz] and its axes [Rs] and [zs], computed or restored from a
    savefile, and then hand them to the drawing routine [bovy_dens2d] of
    another module.  The embedding covers the first part, the [if]/[else]
    statement of each function: [plot_arrays] and [plotPotentials_arrays]
    are the state of the files and of the output after that statement and
    the three arrays, or the exception that left it.  The [return]
    statement with the drawing is outside.  The sizes [nrs] and [nzs] are
    natural numbers. *)

(** The exceptions of this part: those of the potentials, and those of
    indexing and of [pickle.load]. *)
Inductive pyexn : Type :=
| Exn (e : exn)
| IndexError
| EOFError.

Inductive outcome (A : Type) : Type :=
| Returns (a : A)
| Throws (e : pyexn).

Arguments Returns {A} a.
Arguments Throws {A} e.

Definition obind {A B : Type} (m : outcome A) (k : A -> outcome B) :
    outcome B :=
  match m with
  | Returns a => k a
  | Throws e => Throws e
  end.

Notation "x <~ m ;; k" := (obind m (fun x => k))
  (at level 61, m at next level, right associativity).

Definition lift {A : Type} (m : res A) : outcome A :=
  match m with
  | Ok a => Returns a
  | Raise e => Throws (Exn e)
  end.

(** [nu.linspace(start,stop,num)]: [num] points from [start] to [stop],
    both included; numpy computes [arange(0,num)*step + start] and sets
    the last point to [stop]. *)
Definition linspace (start stop : pyfloat) (num : nat) : list pyfloat :=
  match num with
  | O => []
  | S O => [start]
  | S m =>
      let step := fdiv (fsub stop start) (float_of_nat m) in
      map (fun i => fadd (fmul (float_of_nat i) step) start) (seq O m)
        ++ [stop]
  end.

(** [xs[i]] *)
Definition getitem (xs : list pyfloat) (i : nat) : outcome pyfloat :=
  match nth_error xs i with
  | Some x => Returns x
  | None => Throws IndexError
  end.

(** [for i in range(n)] with a body that yields a value or raises; the
    values in order. *)
Fixpoint for_each {A : Type} (body : nat -> outcome A) (l : list nat) :
    outcome (list A) :=
  match l with
  | [] => Returns []
  | i :: rest =>
      a <~ body i ;;
      r <~ for_each body rest ;;
      Returns (a :: r)
  end.

(** [potRz= nu.zeros((nrs,nzs))] filled by the two loops
    [for ii in range(nrs): for jj in range(nzs): potRz[ii,jj]= ...]. *)
Definition fill_grid (nrs nzs : nat) (entry : nat -> nat -> outcome pyfloat) :
    outcome (list (list pyfloat)) :=
  for_each (fun ii => for_each (fun jj => entry ii jj) (seq O nzs))
    (seq O nrs).

(** The arrays that are pickled and restored. *)
Inductive ndarray : Type :=
| Array1 (xs : list pyfloat)
| Array2 (rows : list (list pyfloat)).

(** The files, each the sequence of the objects pickled into it, and what
    has been printed. *)
Record World : Type := mkWorld {
  files : string -> option (list ndarray);
  stdout : list string
}.

(** [py_print line] *)
Definition py_print (line : string) (w : World) : World :=
  {| files := files w; stdout := stdout w ++ [line] |}.

(** [open(name,'wb')] followed by the three [pickle.dump]. *)
Definition write_file (name : string) (content : list ndarray) (w : World) :
    World :=
  {| files := fun n => if String.eqb n name then Some content else files w n;
     stdout := stdout w |}.

(** The test [not savefilename == None and os.path.exists(savefilename)]:
    the name and the content of the file when it holds. *)
Definition existing_savefile (savefilename : option string) (w : World) :
    option (string * list ndarray) :=
  match savefilename with
  | None => None
  | Some name =>
      match files w name with
      | Some content => Some (name, content)
      | None => None
      end
  end.

(** The three [pickle.load] on the open savefile. *)
Definition load3 (content : list ndarray) :
    outcome (ndarray * ndarray * ndarray) :=
  match content with
  | potRz :: Rs :: zs :: _ => Returns (potRz, Rs, zs)
  | _ => Throws EOFError
  end.

(** The [if]/[else] statement shared by [plot] and [plotPotentials];
    [entry Rs zs ii jj] is the right-hand side of the assignment to
    [potRz[ii,jj]]. *)
Definition grid_data
    (entry : list pyfloat -> list pyfloat -> nat -> nat -> outcome pyfloat)
    (rmin rmax : pyfloat) (nrs : nat) (zmin zmax : pyfloat) (nzs : nat)
    (savefilename : option string) (w : World) :
    World * outcome (ndarray * ndarray * ndarray) :=
  match existing_savefile savefilename w with
  | Some (name, content) =>
      let w1 := py_print ("Restoring savefile " ++ name ++ " ...") w in
      (w1, load3 content)
  | None =>
      let Rs := linspace rmin rmax nrs in
      let zs := linspace zmin zmax nzs in
      match fill_grid nrs nzs (entry Rs zs) with
      | Throws e => (w, Throws e)
      | Returns potRz =>
          let data := (Array2 potRz, Array1 Rs, Array1 zs) in
          match savefilename with
          | None => (w, Returns data)
          | Some name =>
              let w1 := py_print ("Writing savefile " ++ name ++ " ...") w in
              (write_file name [Array2 potRz; Array1 Rs; Array1 zs] w1,
               Returns data)
          end
      end
  end.

(** The [if]/[else] statement of [Potential.plot]:
    [potRz[ii,jj]= self._evaluate(Rs[ii],zs[jj])]. *)
Definition plot_arrays (self : Potential)
    (rmin rmax : pyfloat) (nrs : nat) (zmin zmax : pyfloat) (nzs : nat)
    (savefilename : option string) (w : World) :
    World * outcome (ndarray * ndarray * ndarray) :=
  grid_data
    (fun Rs zs ii jj =>
       f <~ lift (getattr (_evaluate (variant self))) ;;
       R <~ getitem Rs ii ;;
       z <~ getitem zs jj ;;
       Returns (f (mkArgs R z None)))
    rmin rmax nrs zmin zmax nzs savefilename w.

(** The [if]/[else] statement of [plotPotentials]:
    [potRz[ii,jj]= evaluatePotentials(Rs[ii],zs[jj],Pot)]. *)
Definition plotPotentials_arrays (Pot : PyObj)
    (rmin rmax : pyfloat) (nrs : nat) (zmin zmax : pyfloat) (nzs : nat)
    (savefilename : option string) (w : World) :
    World * outcome (ndarray * ndarray * ndarray) :=
  grid_data
    (fun Rs zs ii jj =>
       R <~ getitem Rs ii ;;
       z <~ getitem zs jj ;;
       lift (evaluatePotentials R z None Pot))
    rmin rmax nrs zmin zmax nzs savefilename w.

(* ================================================================== *)
(** ** PotentialError as a string *)

Definition squote : Ascii.ascii := Ascii.ascii_of_nat 39.
Definition dquote : Ascii.ascii := Ascii.ascii_of_nat 34.
Definition backslash : Ascii.ascii := Ascii.ascii_of_nat 92.

Fixpoint contains (c : Ascii.ascii) (s : string) : bool :=
  match s with
  | EmptyString => false
  | String d rest => Ascii.eqb d c || contains c rest
  end.

Definition hex_digit (n : nat) : Ascii.ascii :=
  Ascii.ascii_of_nat (if Nat.ltb n 10 then (48 + n)%nat else (87 + n)%nat).

(** One character of a string inside its [repr]: a backslash before the
    quote and the backslash; [\t], [\n], [\r] (the letters have the
    codes 116, 110, 114); [\x] (code 120) and two hexadecimal digits for
    the other characters that do not py_print. *)
Definition repr_char (quote c : Ascii.ascii) : string :=
  let n := Ascii.nat_of_ascii c in
  if Ascii.eqb c quote || Ascii.eqb c backslash
  then String backslash (String c EmptyString)
  else if Nat.eqb n 9 then String backslash (String (Ascii.ascii_of_nat 116) EmptyString)
  else if Nat.eqb n 10 then String backslash (String (Ascii.ascii_of_nat 110) EmptyString)
  else if Nat.eqb n 13 then String backslash (String (Ascii.ascii_of_nat 114) EmptyString)
  else if Nat.ltb n 32 || Nat.leb 127 n
  then String backslash
         (String (Ascii.ascii_of_nat 120)
            (String (hex_digit (Nat.div n 16))
               (String (hex_digit (Nat.modulo n 16)) EmptyString)))
  else String c EmptyString.

Fixpoint repr_chars (quote : Ascii.ascii) (s : string) : string :=
  match s with
  | EmptyString => EmptyString
  | String c rest => repr_char quote c ++ repr_chars quote rest
  end.

(** [repr(s)] of a Python 2 string: between apostrophes, or between
    double quotes when the string has an apostrophe and no double quote;
    the quote, the backslash and the characters that do not py_print are
    escaped. *)
Definition repr (s : string) : string :=
  let quote :=
    if contains squote s && negb (contains dquote s) then dquote else squote
  in
  String quote (repr_chars quote s ++ String quote EmptyString).

(** [PotentialError.__init__(self,value)] keeps [value], the argument of
    the constructor [PotentialError]; [PotentialError.__str__(self)] is
    [repr(self.value)]. *)
Definition PotentialError___str__ (value : string) : string := repr value.

(** The message an exception carries. *)
Definition value_of (e : exn) : option string :=
  match e with
  | PotentialError value => Some value
  | _ => None
  end.

(** A character that prints and is not the backslash: [repr] escapes it
    only when it is the quote. *)
Definition plain (c : Ascii.ascii) : bool :=
  let n := Ascii.nat_of_ascii c in
  Nat.leb 32 n && Nat.ltb n 127 && negb (Ascii.eqb c backslash).

Fixpoint all_chars (p : Ascii.ascii -> bool) (s : string) : bool :=
  match s with
  | EmptyString => true
  | String c rest => p c && all_chars p rest
  end.

(** An empty world. *)
Definition no_files : World :=
  {| files := fun _ => None; stdout := [] |}.

(* ================================================================== *)
(** ** The Potential class on doubles *)

(** The class once more, with the numbers of the code: a Python float is
    the kernel's binary64 [float], with its rounding, overflow, signed
    zeros, [inf] and [nan].  What depends on the arithmetic is proved on
    this model.  Exceptions are those of the rest of the file. *)

Module Double.

Import PrimFloat.
Local Open Scope float_scope.

(** The positional arguments: [(R,z)] or [(R,z,phi)]. *)
Record Args : Type := mkArgs {
  arg_R : float;
  arg_z : float;
  arg_phi : option float
}.

Definition raw : Type := Args -> float.

Record Variant : Type := mkVariant {
  _evaluate : option raw;
  _Rforce : option raw;
  _zforce : option raw;
  _dens : option raw;
  _phiforce : option raw
}.

Record Potential : Type := mkPotential {
  variant : Variant;
  _amp : float;
  dim : nat;
  isRZ : bool;
  isNonAxi : bool
}.

(** [Potential.__init__(self,amp=1.)] *)
Definition __init__ (v : Variant) (amp : option float) : Potential :=
  {| variant := v;
     _amp := match amp with Some a => a | None => 1 end;
     dim := 3;
     isRZ := true;
     isNonAxi := false |}.

(** [Potential._phiforce(self,*args)]: [return 0.] *)
Definition Potential__phiforce : raw := fun _ => 0.

Definition getattr (slot : option raw) : res raw :=
  match slot with
  | Some f => Ok f
  | None => Raise AttributeError
  end.

Definition getattr__phiforce (self : Potential) : res raw :=
  match _phiforce (variant self) with
  | Some f => Ok f
  | None => Ok Potential__phiforce
  end.

(** [Potential.__call__(self,*args)] *)
Definition __call__ (self : Potential) (args : Args) : res float :=
  try_except_AttributeError
    (f <- getattr (_evaluate (variant self)) ;;
     Ok (_amp self * f args))
    (Raise (PotentialError
       "'_evaluate' function not implemented for this potential")).

(** [Potential.Rforce(self,*args)] *)
Definition Rforce (self : Potential) (args : Args) : res float :=
  try_except_AttributeError
    (f <- getattr (_Rforce (variant self)) ;;
     Ok (_amp self * f args))
    (Raise (PotentialError
       "'_Rforce' function not implemented for this potential")).

(** [Potential.zforce(self,*args)] *)
Definition zforce (self : Potential) (args : Args) : res float :=
  try_except_AttributeError
    (f <- getattr (_zforce (variant self)) ;;
     Ok (_amp self * f args))
    (Raise (PotentialError
       "'_zforce' function not implemented for this potential")).

(** [Potential.dens(self,*args)] *)
Definition dens (self : Potential) (args : Args) : res float :=
  try_except_AttributeError
    (f <- getattr (_dens (variant self)) ;;
     Ok (_amp self * f args))
    (Raise (PotentialError
       "'_dens' function not implemented for this potential")).

(** [Potential.phiforce(self,*args)] *)
Definition phiforce (self : Potential) (args : Args) : res float :=
  try_except_AttributeError
    (f <- getattr__phiforce self ;;
     Ok (_amp self * f args))
    (Ok 0).

(** Numbers a caller may pass as [norm]. *)
Inductive pynumber : Type :=
| PyBool (b : bool)
| PyInt (n : Z)
| PyFloat (x : float).

(** The conversion of a Python integer to a double: the nearest double,
    ties to even, and [OverflowError] when that is beyond the largest
    double. *)
Definition float_of_int (n : Z) : res float :=
  match SpecFloat.binary_normalize FloatOps.prec FloatOps.emax n 0 false with
  | SpecFloat.S754_infinity _ => Raise OverflowError
  | sf => Ok (FloatOps.SF2Prim sf)
  end.

(** The double a number stands for in [norm/nu.fabs(...)]: [True] is 1. *)
Definition to_float (n : pynumber) : res float :=
  match n with
  | PyBool true => Ok 1
  | PyBool false => Ok 0
  | PyInt n => float_of_int n
  | PyFloat x => Ok x
  end.

Definition set_amp (self : Potential) (amp : float) : Potential :=
  {| variant := variant self;
     _amp := amp;
     dim := dim self;
     isRZ := isRZ self;
     isNonAxi := isNonAxi self |}.

(** The reference point of [normalize]: the call [self.Rforce(1.,0.)]. *)
Definition ref_point : Args := mkArgs 1 0 None.

(** [Potential.normalize(self,norm)]:
    [self._amp*= norm/nu.fabs(self.Rforce(1.,0.))].
    [self.Rforce(1.,0.)] is evaluated first and may raise; the division by
    the numpy.float64 that [nu.fabs] returns is numpy's, which converts
    [norm] to a double and yields [inf] or [nan] for a zero divisor.  The
    method mutates [self]; here the instance after the call is returned. *)
Definition normalize (self : Potential) (norm : pynumber) : res Potential :=
  F <- Rforce self ref_point ;;
  f <- to_float norm ;;
  Ok (set_amp self (_amp self * (f / abs F))).

(** A point mass seen in the plane: potential [-1/R], radial force
    [-1/R^2], no vertical force, no density function, axisymmetric. *)
Definition point_mass : Variant :=
  {| _evaluate := Some (fun a => -1 / arg_R a);
     _Rforce := Some (fun a => -1 / (arg_R a * arg_R a));
     _zforce := Some (fun _ => 0);
     _dens := None;
     _phiforce := None |}.

(** A constant potential: it exerts no force anywhere. *)
Definition constant_potential : Variant :=
  {| _evaluate := Some (fun _ => 1);
     _Rforce := Some (fun _ => 0);
     _zforce := Some (fun _ => 0);
     _dens := Some (fun _ => 0);
     _phiforce := None |}.

(** A subclass that defines nothing. *)
Definition bare : Variant :=
  {| _evaluate := None;
     _Rforce := None;
     _zforce := None;
     _dens := None;
     _phiforce := None |}.

End Double.

(** Equality of two closed floats. *)
Ltac float_eq :=
  unfold float_of_Z, one, zero;
  repeat (f_equal; try reflexivity); apply Qc_is_canon; reflexivity.

(* ================================================================== *)
(** ** Arithmetic of the float model *)

Section FloatFacts.

Local Open Scope Qc_scope.

Lemma Qc_is_zero_spec (q : Qc) : Qc_is_zero q = true <-> q = 0.
Proof.
  unfold Qc_is_zero. rewrite Qceq_alt.
  destruct (q ?= 0); split; congruence.
Qed.

Lemma Qc_is_zero_false (q : Qc) : Qc_is_zero q = false <-> q <> 0.
Proof.
  rewrite <- Qc_is_zero_spec. destruct (Qc_is_zero q); split; congruence.
Qed.

(** [1. * x] is [x], for the special values too. *)
Lemma fmul_one_l (x : pyfloat) : fmul one x = x.
Proof.
  destruct x as [q | s | ]; simpl.
  - now rewrite Qcmult_1_l.
  - reflexivity.
  - reflexivity.
Qed.

(** [0. + x] is [x], for the special values too. *)
Lemma fadd_zero_l (x : pyfloat) : fadd zero x = x.
Proof.
  destruct x as [q | s | ]; simpl; try reflexivity.
  now rewrite Qcplus_0_l.
Qed.

(** [x * 0.] is [0.] exactly when [x] is finite: [inf * 0.] and
    [nan * 0.] are [nan]. *)
Lemma fmul_zero_r (x : pyfloat) :
  is_finite x = true -> fmul x zero = zero.
Proof.
  destruct x as [q | s | ]; simpl; try discriminate.
  intros _. now rewrite Qcmult_0_r.
Qed.

Lemma fmul_zero_r_nonfinite (x : pyfloat) :
  is_finite x = false -> fmul x zero = NaN.
Proof.
  destruct x as [q | s | ]; simpl; try discriminate; reflexivity.
Qed.

End FloatFacts.

(* ================================================================== *)
(** ** Lemmas on the methods *)

Section Methods.

Variable self : Potential.
Variable args : Args.

(** A method whose raw function resolves returns the amplitude times the
    raw value. *)
Lemma method_resolved (o : op) (f : raw) :
  resolved_raw o (variant self) = Some f ->
  method_of o self args = Ok (fmul (_amp self) (f args)).
Proof.
  unfold resolved_raw.
  destruct o; simpl;
    unfold __call__, dens, Rforce, phiforce, zforce, getattr__phiforce;
    destruct self as [[e d r p zf] amp dm rz na]; simpl;
    match goal with
    | |- context [match ?s with Some _ => _ | None => _ end] => destruct s
    end; simpl; intros H; inversion H; reflexivity.
Qed.

(** A method whose raw function is missing raises [PotentialError] with
    the message of that raw function. *)
Lemma method_missing (o : op) :
  resolved_raw o (variant self) = None ->
  method_of o self args = Raise (not_implemented o).
Proof.
  unfold resolved_raw.
  destruct o; simpl;
    unfold __call__, dens, Rforce, phiforce, zforce;
    destruct self as [[e d r p zf] amp dm rz na]; simpl;
    match goal with
    | |- context [match ?s with Some _ => _ | None => _ end] => destruct s
    end; simpl; intros H; try discriminate H; reflexivity.
Qed.

Lemma resolved_raw_needs (o : op) :
  needs_raw o = true ->
  resolved_raw o (variant self) = raw_of o (variant self).
Proof.
  unfold resolved_raw. destruct o; simpl; try discriminate; intros _;
    match goal with |- context [match ?s with _ => _ end] => destruct s end;
    reflexivity.
Qed.

Lemma resolved_raw_phiforce :
  _phiforce (variant self) = None ->
  resolved_raw OpPhiforce (variant self) = Some Potential__phiforce.
Proof. unfold resolved_raw, raw_of. intros H. rewrite H. reflexivity. Qed.

(** The methods raise nothing but their own [PotentialError]. *)
Lemma method_result (o : op) :
  (exists v, method_of o self args = Ok v) \/
  method_of o self args = Raise (not_implemented o).
Proof.
  destruct (resolved_raw o (variant self)) as [f | ] eqn:E.
  - left. exists (fmul (_amp self) (f args)). apply method_resolved. exact E.
  - right. apply method_missing. exact E.
Qed.

End Methods.

(* ================================================================== *)
(** ** Lemmas on the composition functions *)

Section Composition.

Variable o : op.
Variables R z : pyfloat.
Variable phi : option pyfloat.

Lemma compose_list (l : list PyObj) :
  compose_of o R z phi (PyList l) = for_sum (term_of o (mkArgs R z phi)) l zero.
Proof. destruct o; reflexivity. Qed.

Lemma compose_single (P : Potential) :
  compose_of o R z phi (PyPotential P) = method_of o P (mkArgs R z phi).
Proof. destruct o; reflexivity. Qed.

Lemma compose_other (Pot : PyObj) :
  isinstance_list Pot = false ->
  isinstance_Potential Pot = false ->
  compose_of o R z phi Pot = Raise (input_error (name_of o)).
Proof.
  destruct Pot; simpl; try discriminate; intros _ _; destruct o; reflexivity.
Qed.

Lemma term_Potential (P : Potential) :
  term_of o (mkArgs R z phi) (PyPotential P) = method_of o P (mkArgs R z phi).
Proof. destruct o; reflexivity. Qed.

(** One turn of the loop on a Potential that returns. *)
Lemma for_sum_step (P : Potential) (rest : list PyObj) (sum v : pyfloat) :
  method_of o P (mkArgs R z phi) = Ok v ->
  for_sum (term_of o (mkArgs R z phi)) (PyPotential P :: rest) sum =
  for_sum (term_of o (mkArgs R z phi)) rest (fadd sum v).
Proof. intros H. simpl. rewrite term_Potential, H. reflexivity. Qed.

(** The loop over Potentials returns a sum or stops at the first method
    that is not implemented. *)
Lemma for_sum_Potentials (ps : list Potential) (sum : pyfloat) :
  (exists v, for_sum (term_of o (mkArgs R z phi)) (map PyPotential ps) sum = Ok v) \/
  for_sum (term_of o (mkArgs R z phi)) (map PyPotential ps) sum =
    Raise (not_implemented o).
Proof.
  revert sum. induction ps as [ | P ps IH]; intros sum.
  - left. exists sum. reflexivity.
  - destruct (method_result P (mkArgs R z phi) o) as [[v Hv] | Hr].
    + simpl map. rewrite (for_sum_step P _ sum v Hv). apply IH.
    + right. simpl. rewrite term_Potential, Hr. reflexivity.
Qed.

(** A Potential in the list whose method is not implemented makes the
    loop raise. *)
Lemma for_sum_missing (ps : list Potential) (sum : pyfloat) :
  (exists P, In P ps /\ resolved_raw o (variant P) = None) ->
  for_sum (term_of o (mkArgs R z phi)) (map PyPotential ps) sum =
    Raise (not_implemented o).
Proof.
  revert sum. induction ps as [ | P ps IH]; intros sum [Q [Hin Hq]].
  - destruct Hin.
  - destruct (method_result P (mkArgs R z phi) o) as [[v Hv] | Hr].
    + simpl map. rewrite (for_sum_step P _ sum v Hv). apply IH.
      destruct Hin as [-> | Hin].
      * rewrite (method_missing Q (mkArgs R z phi) o Hq) in Hv. discriminate Hv.
      * exists Q. split; assumption.
    + simpl. rewrite term_Potential, Hr. reflexivity.
Qed.

End Composition.

Lemma input_error_not_not_implemented (o o' : op) :
  input_error (name_of o) <> not_implemented o'.
Proof. destruct o, o'; discriminate. Qed.

(* ================================================================== *)
(** ** Amplitude scaling *)

(** C2.  Linearity in the amplitude.  For every subclass and every
    operation it supports (evaluation, density, the three forces), every
    amplitude [k] (in particular every [k > 0]) and every position, the
    instance built with amplitude 1 returns a value [v1] and the instance
    built with amplitude [k] returns [k * v1]. *)
Theorem amplitude_scaling (o : op) (v : Variant) (k : pyfloat) (args : Args) :
  supports o v = true ->
  exists v1 : pyfloat,
    method_of o (__init__ v (Some one)) args = Ok v1 /\
    method_of o (__init__ v (Some k)) args = Ok (fmul k v1).
Proof.
  unfold supports. intros H.
  destruct (resolved_raw o v) as [f | ] eqn:E; [ | discriminate H ].
  exists (f args). split.
  - rewrite (method_resolved (__init__ v (Some one)) args o f E).
    change (_amp (__init__ v (Some one))) with one.
    now rewrite fmul_one_l.
  - rewrite (method_resolved (__init__ v (Some k)) args o f E).
    reflexivity.
Qed.

Lemma amplitude_scaling_witness :
  supports OpEvaluate point_mass = true /\
  exists v1 : pyfloat,
    __call__ (__init__ point_mass (Some one))
      (mkArgs (float_of_Z 2) zero None) = Ok v1 /\
    __call__ (__init__ point_mass (Some (float_of_Z 3)))
      (mkArgs (float_of_Z 2) zero None) = Ok (fmul (float_of_Z 3) v1).
Proof.
  split.
  - reflexivity.
  - apply (amplitude_scaling OpEvaluate point_mass (float_of_Z 3)
             (mkArgs (float_of_Z 2) zero None)).
    reflexivity.
Defined.

(** The default amplitude of the constructor is 1. *)
Lemma init_default (v : Variant) : __init__ v None = __init__ v (Some one).
Proof. reflexivity. Qed.

(* ================================================================== *)
(** ** Superposition *)

(** C3.  Additivity.  For each of the five composition functions and any
    two Potentials that support its operation, the call on the list
    [[P1, P2]] returns the sum of the two calls on [P1] and on [P2]. *)
Theorem composition_additive (o : op) (P1 P2 : Potential)
    (R z : pyfloat) (phi : option pyfloat) :
  supports o (variant P1) = true ->
  supports o (variant P2) = true ->
  exists v1 v2 : pyfloat,
    compose_of o R z phi (PyPotential P1) = Ok v1 /\
    compose_of o R z phi (PyPotential P2) = Ok v2 /\
    compose_of o R z phi (PyList [PyPotential P1; PyPotential P2]) =
      Ok (fadd v1 v2).
Proof.
  unfold supports. intros H1 H2.
  destruct (resolved_raw o (variant P1)) as [f1 | ] eqn:E1;
    [ | discriminate H1 ].
  destruct (resolved_raw o (variant P2)) as [f2 | ] eqn:E2;
    [ | discriminate H2 ].
  pose proof (method_resolved P1 (mkArgs R z phi) o f1 E1) as M1.
  pose proof (method_resolved P2 (mkArgs R z phi) o f2 E2) as M2.
  exists (fmul (_amp P1) (f1 (mkArgs R z phi))),
         (fmul (_amp P2) (f2 (mkArgs R z phi))).
  rewrite !compose_single, compose_list. repeat split; try assumption.
  rewrite (for_sum_step o R z phi P1 _ zero _ M1).
  rewrite (for_sum_step o R z phi P2 _ _ _ M2).
  rewrite fadd_zero_l. reflexivity.
Qed.

Lemma composition_additive_witness :
  supports OpRforce point_mass = true /\
  supports OpRforce constant_potential = true /\
  exists v1 v2 : pyfloat,
    evaluateRforces (float_of_Z 2) one None
      (PyPotential (__init__ point_mass None)) = Ok v1 /\
    evaluateRforces (float_of_Z 2) one None
      (PyPotential (__init__ constant_potential (Some (float_of_Z 5)))) =
      Ok v2 /\
    evaluateRforces (float_of_Z 2) one None
      (PyList [PyPotential (__init__ point_mass None);
               PyPotential (__init__ constant_potential
                              (Some (float_of_Z 5)))]) =
      Ok (fadd v1 v2).
Proof.
  split; [ reflexivity | split; [ reflexivity | ] ].
  apply (composition_additive OpRforce (__init__ point_mass None)
           (__init__ constant_potential (Some (float_of_Z 5)))
           (float_of_Z 2) one None); reflexivity.
Defined.

(** C4.  A one-element list is the same as the instance itself, for each
    of the five composition functions, every Potential and every position;
    this includes the case where the Potential raises. *)
Theorem single_list_equivalence (o : op) (P : Potential)
    (R z : pyfloat) (phi : option pyfloat) :
  compose_of o R z phi (PyList [PyPotential P]) =
  compose_of o R z phi (PyPotential P).
Proof.
  rewrite compose_list, compose_single.
  destruct (method_result P (mkArgs R z phi) o) as [[v Hv] | Hr].
  - rewrite (for_sum_step o R z phi P [] zero v Hv), Hv.
    rewrite fadd_zero_l. reflexivity.
  - simpl. rewrite term_Potential, Hr. reflexivity.
Qed.

(** C9.  On the empty list each of the five composition functions returns
    [0.], with or without [phi], and raises nothing. *)
Theorem empty_list_zero (o : op) (R z : pyfloat) (phi : option pyfloat) :
  compose_of o R z phi (PyList []) = Ok zero.
Proof. destruct o; reflexivity. Qed.

(* ================================================================== *)
(** ** Operations that are not implemented *)

(** C5.  Raises-iff-missing.  For [__call__], [dens], [Rforce] and
    [zforce]: the method raises exactly when the subclass lacks the raw
    function, and then it raises [PotentialError] with the message naming
    that raw function; so does the composition function on the instance
    and on every list of Potentials that contains it. *)
Theorem missing_raw_raises (o : op) (P : Potential) (args : Args) :
  needs_raw o = true ->
  (raises (method_of o P args) = true <-> raw_of o (variant P) = None) /\
  (raw_of o (variant P) = None ->
   method_of o P args = Raise (not_implemented o) /\
   forall (R z : pyfloat) (phi : option pyfloat),
     compose_of o R z phi (PyPotential P) = Raise (not_implemented o) /\
     forall ps : list Potential,
       In P ps ->
       compose_of o R z phi (PyList (map PyPotential ps)) =
         Raise (not_implemented o)).
Proof.
  intros Hn.
  pose proof (resolved_raw_needs P o Hn) as Hres.
  split.
  - destruct (raw_of o (variant P)) as [f | ] eqn:E.
    + rewrite (method_resolved P args o f) by exact Hres.
      simpl. split; discriminate.
    + rewrite (method_missing P args o) by exact Hres.
      simpl. split; reflexivity.
  - intros E. rewrite <- Hres in E. split.
    + now apply method_missing.
    + intros R z phi. split.
      * rewrite compose_single. now apply method_missing.
      * intros ps Hin. rewrite compose_list.
        apply for_sum_missing. exists P. split; assumption.
Qed.

Lemma missing_raw_raises_witness :
  needs_raw OpDens = true /\
  dens (__init__ point_mass None) ref_point =
    Raise (PotentialError
             "'_dens' function not implemented for this potential") /\
  evaluateDensities one zero None
    (PyList [PyPotential (__init__ constant_potential None);
             PyPotential (__init__ point_mass None)]) =
    Raise (PotentialError
             "'_dens' function not implemented for this potential").
Proof.
  split; [ reflexivity | ].
  destruct (missing_raw_raises OpDens (__init__ point_mass None) ref_point
              eq_refl) as [_ H].
  destruct (H eq_refl) as [Hm Hc]. split.
  - exact Hm.
  - destruct (Hc one zero None) as [_ Hl].
    apply (Hl [__init__ constant_potential None; __init__ point_mass None]).
    right. left. reflexivity.
Defined.

(* ================================================================== *)
(** ** The azimuthal force *)

(** What [phiforce] computes for a subclass without [_phiforce]: the
    inherited [Potential._phiforce] is found, so the [except] branch is
    not taken and the result is the amplitude times [0.]. *)
Lemma phiforce_inherited (P : Potential) (args : Args) :
  _phiforce (variant P) = None ->
  phiforce P args = Ok (fmul (_amp P) zero).
Proof.
  intros H.
  apply (method_resolved P args OpPhiforce Potential__phiforce).
  now apply resolved_raw_phiforce.
Qed.

(** With an amplitude that is not finite the product is [nan]. *)
Lemma phiforce_inherited_nonfinite (P : Potential) (args : Args) :
  _phiforce (variant P) = None ->
  is_finite (_amp P) = false ->
  phiforce P args = Ok NaN.
Proof.
  intros H Hn. rewrite (phiforce_inherited P args H).
  now rewrite (fmul_zero_r_nonfinite (_amp P) Hn).
Qed.

(* ================================================================== *)
(** ** Inputs that are neither a Potential nor a list *)

(** C7, as the code has it.  Each of the five composition functions,
    given a [Pot] that is neither a list nor a Potential instance, raises
    [PotentialError] with the message that names the function and says
    that the input is neither a Potential-instance nor a list of such
    instances.  A list is not inspected: its elements are used as they
    come.  A list that starts with a number, a string, [None], a tuple or
    a list raises [TypeError] in [evaluatePotentials] and [AttributeError]
    in the other four functions, and an element of another class that has
    the method is summed over as a Potential is. *)
Theorem invalid_input_rejected (o : op) (Pot : PyObj)
    (R z : pyfloat) (phi : option pyfloat) :
  (isinstance_list Pot = false ->
   isinstance_Potential Pot = false ->
   compose_of o R z phi Pot =
     Raise (PotentialError
              ("Input to '" ++ name_of o ++
               "' is neither a Potential-instance or a list of such instances"))) /\
  (forall (x : PyObj) (rest : list PyObj),
     Pot = PyList (x :: rest) ->
     is_plain_data x = true ->
     compose_of o R z phi Pot =
       Raise (match o with
              | OpEvaluate => TypeError
              | _ => AttributeError
              end)) /\
  (forall (x : Object) (f : Args -> res pyfloat),
     Pot = PyList [PyObject x] ->
     attr_of o x = Some f ->
     compose_of o R z phi Pot =
       (v <- f (mkArgs R z phi) ;; Ok (fadd zero v))).
Proof.
  split; [ | split ].
  - intros Hl Hp. now apply compose_other.
  - intros x rest -> Hx. rewrite compose_list.
    destruct x; try discriminate Hx; destruct o; reflexivity.
  - intros x f -> Hf. rewrite compose_list.
    destruct o; simpl in Hf; simpl; rewrite Hf; reflexivity.
Qed.

Lemma invalid_input_rejected_witness :
  evaluatePotentials one zero None (PyStr "not a potential") =
    Raise (PotentialError
      "Input to 'evaluatePotentials' is neither a Potential-instance or a list of such instances") /\
  evaluateRforces one zero (Some zero) (PyNum (PyInt 42)) =
    Raise (PotentialError
      "Input to 'evaluateRforces' is neither a Potential-instance or a list of such instances") /\
  evaluateDensities one zero None
    (PyList [PyNone; PyPotential (__init__ constant_potential None)]) =
    Raise AttributeError.
Proof.
  split; [ | split ].
  - destruct (invalid_input_rejected OpEvaluate (PyStr "not a potential")
                one zero None) as [H _].
    exact (H eq_refl eq_refl).
  - destruct (invalid_input_rejected OpRforce (PyNum (PyInt 42))
                one zero (Some zero)) as [H _].
    exact (H eq_refl eq_refl).
  - destruct (invalid_input_rejected OpDens
                (PyList [PyNone; PyPotential (__init__ constant_potential None)])
                one zero None) as (_ & H & _).
    exact (H PyNone _ eq_refl eq_refl).
Defined.

(** C7, the claim as stated fails.  The list [[42]] is neither a
    Potential nor a collection of Potentials, and [evaluatePotentials]
    raises [TypeError] on it, not [PotentialError]: the loop calls the
    integer.  [evaluateRforces] on the list of a string raises
    [AttributeError]. *)
Lemma invalid_list_counterexample :
  evaluatePotentials one zero None (PyList [PyNum (PyInt 42)]) =
    Raise TypeError /\
  evaluateRforces one zero None (PyList [PyStr "not a potential"]) =
    Raise AttributeError /\
  value_of TypeError = None /\
  value_of AttributeError = None.
Proof. repeat split; reflexivity. Qed.

(** C10.  Only a list is taken for a collection: a tuple of Potentials
    makes each of the five composition functions raise the
    [PotentialError] for an invalid input, whereas the list of the same
    Potentials is summed over (and so never raises that error). *)
Theorem tuple_rejected (o : op) (ps : list Potential)
    (R z : pyfloat) (phi : option pyfloat) :
  compose_of o R z phi (PyTuple (map PyPotential ps)) =
    Raise (input_error (name_of o)) /\
  compose_of o R z phi (PyList (map PyPotential ps)) =
    for_sum (term_of o (mkArgs R z phi)) (map PyPotential ps) zero /\
  compose_of o R z phi (PyList (map PyPotential ps)) <>
    Raise (input_error (name_of o)).
Proof.
  split; [ | split ].
  - now apply compose_other.
  - apply compose_list.
  - rewrite compose_list.
    destruct (for_sum_Potentials o R z phi ps zero) as [[v Hv] | Hr].
    + rewrite Hv. discriminate.
    + rewrite Hr. intros H.
      apply (input_error_not_not_implemented o o). congruence.
Qed.

(* ================================================================== *)
(** ** The functions on a point mass *)

(** Two point masses at [R = 2]: the potentials [-1/2] and [-3/2] add up
    to [-2]. *)
Example evaluatePotentials_two_point_masses :
  evaluatePotentials (float_of_Z 2) zero None
    (PyList [PyPotential (__init__ point_mass None);
             PyPotential (__init__ point_mass (Some (float_of_Z 3)))]) =
  Ok (float_of_Z (-2)).
Proof. unfold evaluatePotentials, __call__. simpl. float_eq. Qed.

(** A subclass that defines nothing: four methods raise, [phiforce]
    returns [0.]. *)
Example methods_of_bare :
  __call__ (__init__ bare None) ref_point =
    Raise (PotentialError
             "'_evaluate' function not implemented for this potential") /\
  Rforce (__init__ bare None) ref_point =
    Raise (PotentialError
             "'_Rforce' function not implemented for this potential") /\
  zforce (__init__ bare None) ref_point =
    Raise (PotentialError
             "'_zforce' function not implemented for this potential") /\
  dens (__init__ bare None) ref_point =
    Raise (PotentialError
             "'_dens' function not implemented for this potential") /\
  phiforce (__init__ bare None) ref_point = Ok zero /\
  normalize (__init__ bare None) (PyBool true) =
    Raise (PotentialError
             "'_Rforce' function not implemented for this potential").
Proof.
  repeat split; reflexivity.
Qed.

(* ================================================================== *)
(** ** Lists of any length *)

Section ListSums.

Variable o : op.
Variables R z : pyfloat.
Variable phi : option pyfloat.

Lemma for_sum_app (term : PyObj -> res pyfloat) (l1 l2 : list PyObj)
    (sum : pyfloat) :
  for_sum term (l1 ++ l2) sum =
  (s <- for_sum term l1 sum ;; for_sum term l2 s).
Proof.
  revert sum. induction l1 as [ | x l1 IH]; intros sum;
    cbn [app for_sum bind].
  - reflexivity.
  - destruct (term x) as [w | e]; cbn [bind]; [ apply IH | reflexivity ].
Qed.

(** The loop over Potentials that all return. *)
Lemma for_sum_values (ps : list Potential) (vs : list pyfloat)
    (sum : pyfloat) :
  Forall2 (fun P v => method_of o P (mkArgs R z phi) = Ok v) ps vs ->
  for_sum (term_of o (mkArgs R z phi)) (map PyPotential ps) sum =
  Ok (fold_left fadd vs sum).
Proof.
  intros H. revert sum. induction H as [ | P v ps vs Hv _ IH]; intros sum.
  - reflexivity.
  - simpl map. rewrite (for_sum_step o R z phi P _ sum v Hv). apply IH.
Qed.

(** A list of Potentials either returns at every element or has an
    element whose raw function is missing. *)
Lemma all_return_or_missing (ps : list Potential) :
  (exists vs : list pyfloat,
     Forall2 (fun P v => method_of o P (mkArgs R z phi) = Ok v) ps vs) \/
  (exists P : Potential, In P ps /\ resolved_raw o (variant P) = None).
Proof.
  induction ps as [ | P ps [[vs IH] | [Q [Hin HQ]]]].
  - left. exists []. constructor.
  - destruct (resolved_raw o (variant P)) as [f | ] eqn:E.
    + left. exists (fmul (_amp P) (f (mkArgs R z phi)) :: vs).
      constructor; [ now apply method_resolved | exact IH ].
    + right. exists P. split; [ now left | exact E ].
  - right. exists Q. split; [ now right | exact HQ ].
Qed.

End ListSums.

(** X5.  A list of any length: when every Potential of the list returns,
    the composition function returns the values added up from [0.] in
    list order; and it returns only then. *)
Theorem composition_sums_list (o : op) (ps : list Potential)
    (R z : pyfloat) (phi : option pyfloat) :
  (forall vs : list pyfloat,
     Forall2 (fun P v => method_of o P (mkArgs R z phi) = Ok v) ps vs ->
     compose_of o R z phi (PyList (map PyPotential ps)) =
       Ok (fold_left fadd vs zero)) /\
  (forall v : pyfloat,
     compose_of o R z phi (PyList (map PyPotential ps)) = Ok v ->
     exists vs : list pyfloat,
       Forall2 (fun P v => method_of o P (mkArgs R z phi) = Ok v) ps vs /\
       v = fold_left fadd vs zero).
Proof.
  split.
  - intros vs H. rewrite compose_list. now apply for_sum_values.
  - intros v Hv. rewrite compose_list in Hv.
    destruct (all_return_or_missing o R z phi ps) as [[vs H] | Hm].
    + exists vs. split; [ exact H | ].
      rewrite (for_sum_values o R z phi ps vs zero H) in Hv. congruence.
    + rewrite (for_sum_missing o R z phi ps zero Hm) in Hv. discriminate Hv.
Qed.

(** Every Potential of a list whose methods all return has a method that
    returns. *)
Lemma Forall2_returns (o : op) (args : Args) (ps : list Potential)
    (vs : list pyfloat) (Q : Potential) :
  Forall2 (fun P v => method_of o P args = Ok v) ps vs ->
  In Q ps -> exists v : pyfloat, method_of o Q args = Ok v.
Proof.
  intros H. induction H as [ | P v ps vs Hv _ IH]; intros HQ.
  - destruct HQ.
  - destruct HQ as [<- | HQ]; [ now exists v | now apply IH ].
Qed.

(** What a composition function does on a list of Potentials is known
    from the list as a set: it returns when all of them return, and
    raises the [PotentialError] of the missing raw function otherwise. *)
Lemma compose_Permutation (o : op) (ps qs : list Potential)
    (R z : pyfloat) (phi : option pyfloat) :
  Permutation ps qs ->
  ((exists v, compose_of o R z phi (PyList (map PyPotential ps)) = Ok v) ->
   exists v, compose_of o R z phi (PyList (map PyPotential qs)) = Ok v) /\
  (forall e : exn,
     compose_of o R z phi (PyList (map PyPotential ps)) = Raise e ->
     e = not_implemented o /\
     compose_of o R z phi (PyList (map PyPotential qs)) = Raise e).
Proof.
  intros HP. rewrite !compose_list.
  destruct (all_return_or_missing o R z phi ps) as [[vs H] | [P [Hin HPm]]].
  - rewrite (for_sum_values o R z phi ps vs zero H). split.
    + intros _.
      destruct (all_return_or_missing o R z phi qs)
        as [[ws Hw] | [Q [HQin HQm]]].
      * rewrite (for_sum_values o R z phi qs ws zero Hw). now eexists.
      * destruct (Forall2_returns o _ ps vs Q H
                    (Permutation_in Q (Permutation_sym HP) HQin)) as [v Hv].
        rewrite (method_missing Q (mkArgs R z phi) o HQm) in Hv.
        discriminate Hv.
    + intros e He. discriminate He.
  - rewrite (for_sum_missing o R z phi ps zero) by (exists P; auto). split.
    + intros [v Hv]. discriminate Hv.
    + intros e He. injection He as <-. split; [ reflexivity | ].
      apply for_sum_missing. exists P. split; [ | exact HPm ].
      apply (Permutation_in P HP Hin).
Qed.

(** X6.  The order of the Potentials in the list decides neither whether
    a composition function returns nor what it raises: a permutation of
    the list returns when the list does, and raises the same
    [PotentialError], that of the missing raw function, when the list
    raises. *)
Theorem composition_order_irrelevant (o : op) (ps qs : list Potential)
    (R z : pyfloat) (phi : option pyfloat) :
  Permutation ps qs ->
  ((exists v, compose_of o R z phi (PyList (map PyPotential ps)) = Ok v) <->
   (exists v, compose_of o R z phi (PyList (map PyPotential qs)) = Ok v)) /\
  (forall e : exn,
     compose_of o R z phi (PyList (map PyPotential ps)) = Raise e <->
     compose_of o R z phi (PyList (map PyPotential qs)) = Raise e) /\
  (forall e : exn,
     compose_of o R z phi (PyList (map PyPotential ps)) = Raise e ->
     e = not_implemented o).
Proof.
  intros HP.
  destruct (compose_Permutation o ps qs R z phi HP) as [H1 H2].
  destruct (compose_Permutation o qs ps R z phi (Permutation_sym HP))
    as [H3 H4].
  split; [ | split ].
  - split; assumption.
  - intros e. split; intros He.
    + now apply H2.
    + now apply H4.
  - intros e He. now apply H2.
Qed.


(** X10.  A list of axisymmetric potentials exerts no azimuthal force:
    when no Potential of the list defines [_phiforce] and the amplitudes
    are finite, [evaluatephiforces] returns [0.] at every position. *)
Theorem axisymmetric_list_no_phiforce (ps : list Potential)
    (R z : pyfloat) (phi : option pyfloat) :
  Forall (fun P => _phiforce (variant P) = None /\
                   is_finite (_amp P) = true) ps ->
  evaluatephiforces R z phi (PyList (map PyPotential ps)) = Ok zero.
Proof.
  intros H.
  change evaluatephiforces with (compose_of OpPhiforce).
  rewrite compose_list.
  induction H as [ | P ps [Hn Hf] _ IH].
  - reflexivity.
  - simpl map.
    rewrite (for_sum_step OpPhiforce R z phi P _ zero zero).
    + rewrite fadd_zero_l. exact IH.
    + simpl. rewrite (phiforce_inherited P _ Hn).
      now rewrite (fmul_zero_r (_amp P) Hf).
Qed.

(* ================================================================== *)
(** ** Lemmas on the grids *)

Lemma linspace_length (start stop : pyfloat) (num : nat) :
  List.length (linspace start stop num) = num.
Proof.
  destruct num as [ | [ | m]]; try reflexivity.
  unfold linspace. rewrite List.length_app, List.length_map, List.length_seq. simpl.
  now rewrite Nat.add_comm.
Qed.

Lemma getitem_lt (xs : list pyfloat) (i : nat) :
  (i < List.length xs)%nat -> getitem xs i = Returns (nth i xs NaN).
Proof.
  intros H. unfold getitem.
  destruct (nth_error xs i) as [x | ] eqn:E.
  - now rewrite (nth_error_nth xs i NaN E).
  - apply nth_error_None in E. exfalso. apply (Nat.lt_irrefl i).
    now apply (Nat.lt_le_trans _ _ _ H).
Qed.

Lemma for_each_ext {A : Type} (f g : nat -> outcome A) (l : list nat) :
  (forall i, In i l -> f i = g i) -> for_each f l = for_each g l.
Proof.
  induction l as [ | i l IH]; intros H; simpl.
  - reflexivity.
  - rewrite (H i (or_introl eq_refl)), IH; [ reflexivity | ].
    intros j Hj. apply H. now right.
Qed.

Lemma for_each_Returns {A : Type} (g : nat -> A) (l : list nat) :
  for_each (fun i => Returns (g i)) l = Returns (map g l).
Proof.
  induction l as [ | i l IH]; simpl.
  - reflexivity.
  - now rewrite IH.
Qed.

Lemma map_nth_seq {A : Type} (g : pyfloat -> A) (xs : list pyfloat) :
  map (fun i => g (nth i xs NaN)) (seq O (List.length xs)) = map g xs.
Proof.
  induction xs as [ | x xs IH]; simpl.
  - reflexivity.
  - f_equal. rewrite <- seq_shift, map_map. exact IH.
Qed.

(** The two loops over a grid whose entries are [h R z]: nothing raises,
    and row [ii] holds the values at [Rs[ii]]. *)
Lemma fill_grid_values (Rs zs : list pyfloat)
    (entry : nat -> nat -> outcome pyfloat) (h : pyfloat -> pyfloat -> pyfloat) :
  (forall ii jj, (ii < List.length Rs)%nat -> (jj < List.length zs)%nat ->
     entry ii jj = Returns (h (nth ii Rs NaN) (nth jj zs NaN))) ->
  fill_grid (List.length Rs) (List.length zs) entry =
  Returns (map (fun R => map (fun z => h R z) zs) Rs).
Proof.
  intros H. unfold fill_grid.
  rewrite (for_each_ext _
             (fun ii => Returns (map (fun z => h (nth ii Rs NaN) z) zs))).
  - rewrite for_each_Returns.
    now rewrite (map_nth_seq (fun R => map (fun z => h R z) zs) Rs).
  - intros ii Hii. apply in_seq in Hii. destruct Hii as [_ Hii].
    rewrite (for_each_ext _
               (fun jj => Returns (h (nth ii Rs NaN) (nth jj zs NaN)))).
    + rewrite for_each_Returns.
      now rewrite (map_nth_seq (fun z => h (nth ii Rs NaN) z) zs).
    + intros jj Hjj. apply in_seq in Hjj. destruct Hjj as [_ Hjj].
      now apply H.
Qed.

(** The two loops when the entry at [(0,0)] raises. *)
Lemma fill_grid_first_raises (nrs nzs : nat)
    (entry : nat -> nat -> outcome pyfloat) (e : pyexn) :
  (0 < nrs)%nat -> (0 < nzs)%nat ->
  entry O O = Throws e ->
  fill_grid nrs nzs entry = Throws e.
Proof.
  intros Hr Hz He. unfold fill_grid.
  destruct nrs as [ | nrs]; [ now elim (Nat.lt_irrefl O) | ].
  destruct nzs as [ | nzs]; [ now elim (Nat.lt_irrefl O) | ].
  simpl. now rewrite He.
Qed.

(** The two loops over a grid without a point: the entries are not
    computed. *)
Lemma fill_grid_empty (nrs nzs : nat) (entry : nat -> nat -> outcome pyfloat) :
  nrs = O \/ nzs = O ->
  fill_grid nrs nzs entry = Returns (repeat [] nrs).
Proof.
  intros [-> | ->]; unfold fill_grid; simpl.
  - reflexivity.
  - rewrite for_each_Returns. f_equal.
    generalize O. induction nrs as [ | n IH]; intros s; simpl.
    + reflexivity.
    + now rewrite IH.
Qed.

(** What [grid_data] returns when the grid is computed. *)
Lemma grid_data_computes
    (entry : list pyfloat -> list pyfloat -> nat -> nat -> outcome pyfloat)
    (rmin rmax : pyfloat) (nrs : nat) (zmin zmax : pyfloat) (nzs : nat)
    (savefilename : option string) (w : World) (potRz : list (list pyfloat)) :
  existing_savefile savefilename w = None ->
  fill_grid nrs nzs
    (entry (linspace rmin rmax nrs) (linspace zmin zmax nzs)) =
    Returns potRz ->
  snd (grid_data entry rmin rmax nrs zmin zmax nzs savefilename w) =
  Returns (Array2 potRz, Array1 (linspace rmin rmax nrs),
           Array1 (linspace zmin zmax nzs)).
Proof.
  intros He Hg. unfold grid_data. rewrite He, Hg.
  destruct savefilename; reflexivity.
Qed.

Lemma grid_data_raises
    (entry : list pyfloat -> list pyfloat -> nat -> nat -> outcome pyfloat)
    (rmin rmax : pyfloat) (nrs : nat) (zmin zmax : pyfloat) (nzs : nat)
    (savefilename : option string) (w : World) (e : pyexn) :
  existing_savefile savefilename w = None ->
  fill_grid nrs nzs
    (entry (linspace rmin rmax nrs) (linspace zmin zmax nzs)) = Throws e ->
  grid_data entry rmin rmax nrs zmin zmax nzs savefilename w = (w, Throws e).
Proof. intros He Hg. unfold grid_data. now rewrite He, Hg. Qed.

(** A call with a savefilename that returned leaves a file that holds
    what it returned. *)
Lemma grid_data_saved
    (entry : list pyfloat -> list pyfloat -> nat -> nat -> outcome pyfloat)
    (rmin rmax : pyfloat) (nrs : nat) (zmin zmax : pyfloat) (nzs : nat)
    (name : string) (w w1 : World) (d : ndarray * ndarray * ndarray) :
  grid_data entry rmin rmax nrs zmin zmax nzs (Some name) w =
    (w1, Returns d) ->
  exists content : list ndarray,
    files w1 name = Some content /\ load3 content = Returns d.
Proof.
  unfold grid_data, existing_savefile.
  destruct (files w name) as [content | ] eqn:E.
  - intros H. injection H as <- H. exists content. split; assumption.
  - destruct (fill_grid _ _ _) as [potRz | e]; intros H;
      [ | discriminate H ].
    injection H as <- <-.
    exists [Array2 potRz; Array1 (linspace rmin rmax nrs);
            Array1 (linspace zmin zmax nzs)].
    split; [ | reflexivity ].
    simpl. now rewrite String.eqb_refl.
Qed.

(** A call on an existing savefile restores it. *)
Lemma grid_data_restores
    (entry : list pyfloat -> list pyfloat -> nat -> nat -> outcome pyfloat)
    (rmin rmax : pyfloat) (nrs : nat) (zmin zmax : pyfloat) (nzs : nat)
    (name : string) (w : World) (content : list ndarray) :
  files w name = Some content ->
  grid_data entry rmin rmax nrs zmin zmax nzs (Some name) w =
  (py_print ("Restoring savefile " ++ name ++ " ...") w, load3 content).
Proof. intros H. unfold grid_data, existing_savefile. now rewrite H. Qed.

(* ================================================================== *)
(** ** What plot and plotPotentials compute *)

(** X11.  [plot] draws the raw potential: the grid it computes holds
    [_evaluate] at the grid points and does not depend on the amplitude,
    so [normalize] does not change it, whereas the grid [plotPotentials]
    computes for the same instance is that grid times the amplitude. *)
Theorem plot_ignores_amplitude (P : Potential) (f : raw)
    (rmin rmax : pyfloat) (nrs : nat) (zmin zmax : pyfloat) (nzs : nat)
    (savefilename : option string) (w : World) :
  _evaluate (variant P) = Some f ->
  existing_savefile savefilename w = None ->
  snd (plot_arrays P rmin rmax nrs zmin zmax nzs savefilename w) =
    Returns
      (Array2 (map (fun R => map (fun z => f (mkArgs R z None))
                                 (linspace zmin zmax nzs))
                   (linspace rmin rmax nrs)),
       Array1 (linspace rmin rmax nrs), Array1 (linspace zmin zmax nzs)) /\
  snd (plotPotentials_arrays (PyPotential P) rmin rmax nrs zmin zmax nzs
         savefilename w) =
    Returns
      (Array2 (map (map (fmul (_amp P)))
                 (map (fun R => map (fun z => f (mkArgs R z None))
                                    (linspace zmin zmax nzs))
                      (linspace rmin rmax nrs))),
       Array1 (linspace rmin rmax nrs), Array1 (linspace zmin zmax nzs)) /\
  (forall (norm : pynumber) (P' : Potential),
     normalize P norm = Ok P' ->
     plot_arrays P' rmin rmax nrs zmin zmax nzs savefilename w =
     plot_arrays P rmin rmax nrs zmin zmax nzs savefilename w).
Proof.
  intros Hf He. split; [ | split ].
  - unfold plot_arrays. apply grid_data_computes; [ exact He | ].
    rewrite Hf. simpl lift.
    rewrite <- (linspace_length rmin rmax nrs) at 1.
    rewrite <- (linspace_length zmin zmax nzs) at 1.
    apply (fill_grid_values _ _ _ (fun R z => f (mkArgs R z None))).
    intros ii jj Hi Hj. simpl.
    now rewrite (getitem_lt _ _ Hi), (getitem_lt _ _ Hj).
  - unfold plotPotentials_arrays. rewrite !map_map.
    apply grid_data_computes; [ exact He | ].
    rewrite <- (linspace_length rmin rmax nrs) at 1.
    rewrite <- (linspace_length zmin zmax nzs) at 1.
    rewrite (fill_grid_values _ _ _
               (fun R z => fmul (_amp P) (f (mkArgs R z None)))).
    + f_equal. apply map_ext. intros R. now rewrite map_map.
    + intros ii jj Hi Hj.
      rewrite (getitem_lt _ _ Hi), (getitem_lt _ _ Hj). simpl.
      unfold __call__. rewrite Hf. reflexivity.
  - intros norm P' HN. unfold normalize in HN.
    destruct (Rforce P (mkArgs one zero None)) as [F | e]; simpl in HN;
      [ | discriminate HN ].
    destruct (to_float norm) as [f0 | e]; simpl in HN; [ | discriminate HN ].
    injection HN as <-. reflexivity.
Qed.

(** X12.  A subclass without [_evaluate], on a grid that has a point and
    without a savefile to restore: [plot] fails with the bare
    [AttributeError], which it does not catch, and [plotPotentials] with
    the [PotentialError] of [_evaluate]; neither prints nor writes. *)
Theorem plot_missing_evaluate (P : Potential)
    (rmin rmax : pyfloat) (nrs : nat) (zmin zmax : pyfloat) (nzs : nat)
    (savefilename : option string) (w : World) :
  _evaluate (variant P) = None ->
  existing_savefile savefilename w = None ->
  (0 < nrs)%nat -> (0 < nzs)%nat ->
  plot_arrays P rmin rmax nrs zmin zmax nzs savefilename w =
    (w, Throws (Exn AttributeError)) /\
  plotPotentials_arrays (PyPotential P) rmin rmax nrs zmin zmax nzs savefilename w =
    (w, Throws (Exn (PotentialError
          "'_evaluate' function not implemented for this potential"))).
Proof.
  intros Hf He Hr Hz. split.
  - unfold plot_arrays. apply grid_data_raises; [ exact He | ].
    apply fill_grid_first_raises; try assumption.
    now rewrite Hf.
  - unfold plotPotentials_arrays. apply grid_data_raises; [ exact He | ].
    apply fill_grid_first_raises; try assumption.
    rewrite !getitem_lt by (rewrite linspace_length; assumption).
    simpl. unfold __call__. now rewrite Hf.
Qed.

(** X13.  [plotPotentials] looks at [Pot] only when it computes a grid
    point.  Without a savefile to restore, a [Pot] that is neither a list
    nor a Potential raises the [PotentialError] of [evaluatePotentials]
    when the grid has a point; when [nrs] or [nzs] is 0 nothing is
    evaluated and the statement ends with the empty grid, whatever [Pot]
    is. *)
Theorem plotPotentials_invalid_input (Pot : PyObj)
    (rmin rmax : pyfloat) (nrs : nat) (zmin zmax : pyfloat) (nzs : nat)
    (savefilename : option string) (w : World) :
  existing_savefile savefilename w = None ->
  (isinstance_list Pot = false -> isinstance_Potential Pot = false ->
   (0 < nrs)%nat -> (0 < nzs)%nat ->
   plotPotentials_arrays Pot rmin rmax nrs zmin zmax nzs savefilename w =
     (w, Throws (Exn (input_error "evaluatePotentials")))) /\
  (nrs = O \/ nzs = O ->
   snd (plotPotentials_arrays Pot rmin rmax nrs zmin zmax nzs savefilename w) =
     Returns (Array2 (repeat [] nrs), Array1 (linspace rmin rmax nrs),
              Array1 (linspace zmin zmax nzs))).
Proof.
  intros He. split.
  - intros Hl Hp Hr Hz. unfold plotPotentials_arrays.
    apply grid_data_raises; [ exact He | ].
    apply fill_grid_first_raises; try assumption.
    rewrite !getitem_lt by (rewrite linspace_length; assumption).
    simpl obind.
    now rewrite (compose_other OpEvaluate _ _ None Pot Hl Hp).
  - intros H0. unfold plotPotentials_arrays.
    apply grid_data_computes; [ exact He | ].
    now apply fill_grid_empty.
Qed.

(** X14.  The savefile is trusted blindly.  Once [plot] or
    [plotPotentials] has obtained its arrays in a call with a
    savefilename, every later call of either function with that
    savefilename obtains the same three arrays, whatever the potential,
    the bounds and the sizes of the grid it is given; it prints that it
    restores the file and leaves the files as they are. *)
Theorem savefile_round_trip (P : Potential) (Pot : PyObj)
    (rmin rmax : pyfloat) (nrs : nat) (zmin zmax : pyfloat) (nzs : nat)
    (name : string) (w w1 : World) (d : ndarray * ndarray * ndarray) :
  plot_arrays P rmin rmax nrs zmin zmax nzs (Some name) w = (w1, Returns d) \/
  plotPotentials_arrays Pot rmin rmax nrs zmin zmax nzs (Some name) w =
    (w1, Returns d) ->
  forall (Q : Potential) (Pot' : PyObj)
         (rmin' rmax' : pyfloat) (nrs' : nat)
         (zmin' zmax' : pyfloat) (nzs' : nat),
    plot_arrays Q rmin' rmax' nrs' zmin' zmax' nzs' (Some name) w1 =
      (py_print ("Restoring savefile " ++ name ++ " ...") w1, Returns d) /\
    plotPotentials_arrays Pot' rmin' rmax' nrs' zmin' zmax' nzs' (Some name) w1 =
      (py_print ("Restoring savefile " ++ name ++ " ...") w1, Returns d).
Proof.
  intros H Q Pot' rmin' rmax' nrs' zmin' zmax' nzs'.
  assert (Hc : exists content : list ndarray,
            files w1 name = Some content /\ load3 content = Returns d).
  { destruct H as [H | H].
    - unfold plot_arrays in H. exact (grid_data_saved _ _ _ _ _ _ _ _ _ _ _ H).
    - unfold plotPotentials_arrays in H.
      exact (grid_data_saved _ _ _ _ _ _ _ _ _ _ _ H). }
  destruct Hc as (content & Hfile & Hload).
  split.
  - unfold plot_arrays. rewrite (grid_data_restores _ _ _ _ _ _ _ _ _ _ Hfile).
    now rewrite Hload.
  - unfold plotPotentials_arrays.
    rewrite (grid_data_restores _ _ _ _ _ _ _ _ _ _ Hfile).
    now rewrite Hload.
Qed.

(* ================================================================== *)
(** ** The string of a PotentialError *)

Lemma repr_chars_plain (quote : Ascii.ascii) (s : string) :
  all_chars plain s = true ->
  contains quote s = false ->
  repr_chars quote s = s.
Proof.
  induction s as [ | c s IH]; cbn [all_chars contains repr_chars];
    intros Hp Hq.
  - reflexivity.
  - apply andb_true_iff in Hp. destruct Hp as [Hc Hp].
    apply orb_false_iff in Hq. destruct Hq as [Hcq Hq].
    rewrite (IH Hp Hq).
    unfold plain in Hc.
    apply andb_true_iff in Hc. destruct Hc as [Hc Hb].
    apply andb_true_iff in Hc. destruct Hc as [Hlo Hhi].
    apply negb_true_iff in Hb.
    apply Nat.leb_le in Hlo. apply Nat.ltb_lt in Hhi.
    unfold repr_char. rewrite Hcq, Hb. cbn [orb].
    assert (E9 : Nat.eqb (Ascii.nat_of_ascii c) 9 = false)
      by (apply Nat.eqb_neq; lia).
    assert (E10 : Nat.eqb (Ascii.nat_of_ascii c) 10 = false)
      by (apply Nat.eqb_neq; lia).
    assert (E13 : Nat.eqb (Ascii.nat_of_ascii c) 13 = false)
      by (apply Nat.eqb_neq; lia).
    rewrite E9, E10, E13.
    assert (Elo : Nat.ltb (Ascii.nat_of_ascii c) 32 = false).
    { apply Nat.ltb_ge. exact Hlo. }
    assert (Ehi : Nat.leb 127 (Ascii.nat_of_ascii c) = false).
    { apply Nat.leb_gt. exact Hhi. }
    rewrite Elo, Ehi. reflexivity.
Qed.

(** X15.  What [str(e)] shows for a [PotentialError]: a message of
    printing characters without backslash comes out unchanged between
    quotes, double quotes when it holds an apostrophe and no double quote,
    apostrophes when it holds no apostrophe.  Every message this module
    raises is of the first kind. *)
Theorem PotentialError_str (value : string) :
  all_chars plain value = true ->
  (contains squote value = true -> contains dquote value = false ->
   PotentialError___str__ value =
     String dquote (value ++ String dquote EmptyString)) /\
  (contains squote value = false ->
   PotentialError___str__ value =
     String squote (value ++ String squote EmptyString)) /\
  (forall o : op,
     (exists m : string,
        value_of (not_implemented o) = Some m /\
        PotentialError___str__ m =
          String dquote (m ++ String dquote EmptyString)) /\
     (exists m : string,
        value_of (input_error (name_of o)) = Some m /\
        PotentialError___str__ m =
          String dquote (m ++ String dquote EmptyString))).
Proof.
  intros Hp. unfold PotentialError___str__, repr. split; [ | split ].
  - intros Hs Hd. rewrite Hs, Hd. simpl.
    now rewrite (repr_chars_plain dquote value Hp Hd).
  - intros Hs. rewrite Hs. simpl.
    now rewrite (repr_chars_plain squote value Hp Hs).
  - intros o. split; eexists; (split; [ reflexivity | ]);
      destruct o; reflexivity.
Qed.

(* ================================================================== *)
(** ** Instances *)

(** An instance of X5. *)
Lemma composition_sums_list_witness :
  exists v1 v2 : pyfloat,
    __call__ (__init__ point_mass None) (mkArgs (float_of_Z 2) zero None) =
      Ok v1 /\
    __call__ (__init__ constant_potential None)
      (mkArgs (float_of_Z 2) zero None) = Ok v2 /\
    evaluatePotentials (float_of_Z 2) zero None
      (PyList [PyPotential (__init__ point_mass None);
               PyPotential (__init__ constant_potential None);
               PyPotential (__init__ point_mass None)]) =
      Ok (fadd (fadd (fadd zero v1) v2) v1).
Proof.
  eexists. eexists. split; [ reflexivity | split; [ reflexivity | ] ].
  destruct (composition_sums_list OpEvaluate
              [__init__ point_mass None; __init__ constant_potential None;
               __init__ point_mass None]
              (float_of_Z 2) zero None) as [H _].
  apply (H [_; _; _]).
  repeat constructor.
Defined.

(** An instance of X6. *)
Lemma composition_order_irrelevant_witness :
  evaluatezforces one one None
    (PyList [PyPotential (__init__ bare None);
             PyPotential (__init__ point_mass None);
             PyPotential (__init__ constant_potential None)]) =
  Raise (PotentialError
           "'_zforce' function not implemented for this potential").
Proof.
  destruct (composition_order_irrelevant OpZforce
              [__init__ point_mass None; __init__ bare None;
               __init__ constant_potential None]
              [__init__ bare None; __init__ point_mass None;
               __init__ constant_potential None]
              one one None (perm_swap _ _ _)) as (_ & H & _).
  apply (H (PotentialError
              "'_zforce' function not implemented for this potential")).
  reflexivity.
Defined.


(** An instance of X10. *)
Lemma axisymmetric_list_no_phiforce_witness :
  evaluatephiforces one zero (Some (float_of_Z 3))
    (PyList [PyPotential (__init__ point_mass (Some (float_of_Z 2)));
             PyPotential (__init__ constant_potential None)]) = Ok zero.
Proof.
  apply (axisymmetric_list_no_phiforce
           [__init__ point_mass (Some (float_of_Z 2));
            __init__ constant_potential None]).
  repeat constructor.
Defined.

(** An instance of X11. *)
Lemma plot_ignores_amplitude_witness :
  snd (plot_arrays (__init__ constant_potential (Some (float_of_Z 5)))
         zero one 2 zero one 2 None no_files) =
    Returns
      (Array2 (map (fun R => map (fun z => one) (linspace zero one 2))
                   (linspace zero one 2)),
       Array1 (linspace zero one 2), Array1 (linspace zero one 2)) /\
  snd (plotPotentials_arrays
         (PyPotential (__init__ constant_potential (Some (float_of_Z 5))))
         zero one 2 zero one 2 None no_files) =
    Returns
      (Array2 (map (map (fmul (float_of_Z 5)))
                 (map (fun R => map (fun z => one) (linspace zero one 2))
                      (linspace zero one 2))),
       Array1 (linspace zero one 2), Array1 (linspace zero one 2)).
Proof.
  destruct (plot_ignores_amplitude
              (__init__ constant_potential (Some (float_of_Z 5)))
              (fun _ => one) zero one 2 zero one 2 None no_files
              eq_refl eq_refl) as (H1 & H2 & _).
  split; [ exact H1 | exact H2 ].
Defined.

(** An instance of X12. *)
Lemma plot_missing_evaluate_witness :
  plot_arrays (__init__ bare None) zero one 2 zero one 3 (Some "pot.sav"%string)
    no_files = (no_files, Throws (Exn AttributeError)) /\
  plotPotentials_arrays (PyPotential (__init__ bare None)) zero one 2 zero one 3
    (Some "pot.sav"%string) no_files =
    (no_files,
     Throws (Exn (PotentialError
          "'_evaluate' function not implemented for this potential"))).
Proof.
  apply (plot_missing_evaluate (__init__ bare None) zero one 2 zero one 3
           (Some "pot.sav"%string) no_files eq_refl eq_refl);
    repeat constructor.
Defined.

(** An instance of X13. *)
Lemma plotPotentials_invalid_input_witness :
  plotPotentials_arrays (PyStr "not a potential") zero one 2 zero one 3 None
    no_files =
    (no_files, Throws (Exn (input_error "evaluatePotentials"))) /\
  snd (plotPotentials_arrays (PyStr "not a potential") zero one 2 zero one 0 None
         no_files) =
    Returns (Array2 [[]; []], Array1 (linspace zero one 2), Array1 []).
Proof.
  split.
  - destruct (plotPotentials_invalid_input (PyStr "not a potential")
                zero one 2 zero one 3 None no_files eq_refl) as [H _].
    apply H; try reflexivity; repeat constructor.
  - destruct (plotPotentials_invalid_input (PyStr "not a potential")
                zero one 2 zero one 0 None no_files eq_refl) as [_ H].
    apply H. right. reflexivity.
Defined.

(** An instance of X14. *)
Lemma savefile_round_trip_witness :
  exists (w1 : World) (d : ndarray * ndarray * ndarray),
    plot_arrays (__init__ constant_potential None) zero one 2 zero one 2
      (Some "pot.sav"%string) no_files = (w1, Returns d) /\
    plot_arrays (__init__ bare None) one one 0 one one 7 (Some "pot.sav"%string)
      w1 =
      (py_print "Restoring savefile pot.sav ..." w1, Returns d) /\
    plotPotentials_arrays PyNone one one 0 one one 7 (Some "pot.sav"%string) w1 =
      (py_print "Restoring savefile pot.sav ..." w1, Returns d).
Proof.
  eexists. eexists. split; [ reflexivity | ].
  apply (savefile_round_trip (__init__ constant_potential None) PyNone
           zero one 2 zero one 2 "pot.sav" no_files).
  left. reflexivity.
Defined.

(** An instance of X15. *)
Lemma PotentialError_str_witness :
  all_chars plain "'_dens' function not implemented for this potential" =
    true /\
  PotentialError___str__
    "'_dens' function not implemented for this potential" =
  String dquote
    ("'_dens' function not implemented for this potential" ++
     String dquote EmptyString) /\
  PotentialError___str__ "no such potential" =
  String squote ("no such potential" ++ String squote EmptyString).
Proof.
  split; [ reflexivity | split ].
  - destruct (PotentialError_str
                "'_dens' function not implemented for this potential"
                eq_refl) as (H & _ & _).
    exact (H eq_refl eq_refl).
  - destruct (PotentialError_str "no such potential" eq_refl)
      as (_ & H & _).
    exact (H eq_refl).
Defined.

(* ================================================================== *)
(** ** normalize and phiforce on doubles *)

Module DoubleFacts.

Import PrimFloat SpecFloat FloatOps FloatAxioms.
Local Open Scope float_scope.

(** *** What the tests of a double say about it *)

Lemma is_zero_inv (x : float) :
  is_zero x = true -> exists s : bool, Prim2SF x = S754_zero s.
Proof.
  unfold is_zero. rewrite eqb_spec.
  change (Prim2SF zero) with (S754_zero false).
  destruct (Prim2SF x) as [s | s | | s m e]; try (now exists s);
    try destruct s; discriminate.
Qed.

Lemma is_zero_intro (x : float) (s : bool) :
  Prim2SF x = S754_zero s -> is_zero x = true.
Proof.
  intros H. unfold is_zero. rewrite eqb_spec, H. reflexivity.
Qed.

Lemma is_nan_intro (x : float) : Prim2SF x = S754_nan -> is_nan x = true.
Proof. intros H. unfold is_nan. rewrite eqb_spec, H. reflexivity. Qed.

Lemma is_finite_nan (x : float) : Prim2SF x = S754_nan -> is_finite x = false.
Proof.
  intros H. unfold is_finite. now rewrite (is_nan_intro x H).
Qed.

Lemma is_finite_infinity (x : float) (s : bool) :
  Prim2SF x = S754_infinity s -> is_finite x = false.
Proof.
  intros H. unfold is_finite, is_infinity.
  rewrite eqb_spec, abs_spec, H.
  change (Prim2SF infinity) with (S754_infinity false).
  change (SFeqb (SFabs (S754_infinity s)) (S754_infinity false)) with true.
  now rewrite orb_true_r.
Qed.

(** A finite double that is not zero. *)
Lemma finite_nonzero_inv (x : float) :
  is_finite x = true -> is_zero x = false ->
  exists (s : bool) (m : positive) (e : Z), Prim2SF x = S754_finite s m e.
Proof.
  intros Hf Hz.
  destruct (Prim2SF x) as [s | s | | s m e] eqn:E.
  - rewrite (is_zero_intro x s E) in Hz. discriminate Hz.
  - rewrite (is_finite_infinity x s E) in Hf. discriminate Hf.
  - rewrite (is_finite_nan x E) in Hf. discriminate Hf.
  - now exists s, m, e.
Qed.

Lemma SFeqb_finite_refl (s : bool) (m : positive) (e : Z) :
  SFeqb (S754_finite s m e) (S754_finite s m e) = true.
Proof.
  unfold SFeqb, SFcompare.
  destruct s; rewrite Z.compare_refl;
    change (Pos.compare_cont Eq m m) with (Pos.compare m m);
    now rewrite Pos.compare_refl.
Qed.

Lemma is_finite_finite (x : float) (s : bool) (m : positive) (e : Z) :
  Prim2SF x = S754_finite s m e -> is_finite x = true.
Proof.
  intros H. unfold is_finite, is_nan, is_infinity.
  rewrite !eqb_spec, abs_spec, H.
  rewrite SFeqb_finite_refl. reflexivity.
Qed.

Lemma is_finite_zero (x : float) (s : bool) :
  Prim2SF x = S754_zero s -> is_finite x = true.
Proof.
  intros H. unfold is_finite, is_nan, is_infinity.
  rewrite !eqb_spec, abs_spec, H. reflexivity.
Qed.

(** A double that is not finite is [inf], [-inf] or [nan]. *)
Lemma nonfinite_inv (x : float) :
  is_finite x = false ->
  (exists t, Prim2SF x = S754_infinity t) \/ Prim2SF x = S754_nan.
Proof.
  intros H. destruct (Prim2SF x) as [s | s | | s m e] eqn:E.
  - rewrite (is_finite_zero x s E) in H. discriminate H.
  - left. now exists s.
  - now right.
  - rewrite (is_finite_finite x s m e E) in H. discriminate H.
Qed.

(** A finite double is a zero or a finite nonzero double. *)
Lemma finite_inv (x : float) :
  is_finite x = true ->
  (exists s, Prim2SF x = S754_zero s) \/
  (exists s m e, Prim2SF x = S754_finite s m e).
Proof.
  intros H. destruct (Prim2SF x) as [s | s | | s m e] eqn:E.
  - left. now exists s.
  - rewrite (is_finite_infinity x s E) in H. discriminate H.
  - rewrite (is_finite_nan x E) in H. discriminate H.
  - right. now exists s, m, e.
Qed.

(** *** Multiplication and division on the special values *)

(** A finite nonzero product has finite nonzero factors. *)
Lemma mul_finite_inv (x y : float) (s : bool) (m : positive) (e : Z) :
  Prim2SF (x * y) = S754_finite s m e ->
  (exists sx mx ex, Prim2SF x = S754_finite sx mx ex) /\
  (exists sy my ey, Prim2SF y = S754_finite sy my ey).
Proof.
  rewrite mul_spec. unfold SF64mul.
  destruct (Prim2SF x) as [sx | sx | | sx mx ex],
           (Prim2SF y) as [sy | sy | | sy my ey];
    simpl; intros H; try discriminate H.
  split; [ now exists sx, mx, ex | now exists sy, my, ey ].
Qed.

(** Dividing by a zero never gives a finite double. *)
Lemma div_by_zero (x y : float) (s : bool) :
  Prim2SF y = S754_zero s ->
  (exists t, Prim2SF (x / y) = S754_infinity t) \/
  Prim2SF (x / y) = S754_nan.
Proof.
  intros H. rewrite div_spec, H. unfold SF64div.
  destruct (Prim2SF x) as [sx | sx | | sx mx ex]; simpl.
  - now right.
  - left. now eexists.
  - now right.
  - left. now eexists.
Qed.

(** A product with [inf] or [nan] is [inf] or [nan]. *)
Lemma mul_nonfinite_r (x y : float) :
  (exists t, Prim2SF y = S754_infinity t) \/ Prim2SF y = S754_nan ->
  is_finite (x * y) = false.
Proof.
  intros [[t H] | H].
  - destruct (Prim2SF x) as [sx | sx | | sx mx ex] eqn:E.
    + apply is_finite_nan. rewrite mul_spec, E, H. reflexivity.
    + apply (is_finite_infinity _ (xorb sx t)).
      rewrite mul_spec, E, H. reflexivity.
    + apply is_finite_nan. rewrite mul_spec, E, H. reflexivity.
    + apply (is_finite_infinity _ (xorb sx t)).
      rewrite mul_spec, E, H. reflexivity.
  - apply is_finite_nan. rewrite mul_spec, H. unfold SF64mul.
    destruct (Prim2SF x); reflexivity.
Qed.

(** Zero times [inf] or [nan] is [nan]. *)
Lemma mul_zero_nonfinite (x y : float) (s : bool) :
  Prim2SF x = S754_zero s ->
  (exists t, Prim2SF y = S754_infinity t) \/ Prim2SF y = S754_nan ->
  is_nan (x * y) = true.
Proof.
  intros Hx [[t H] | H]; apply is_nan_intro; rewrite mul_spec, Hx, H;
    reflexivity.
Qed.

Lemma abs_zero (x : float) (s : bool) :
  Prim2SF x = S754_zero s -> Prim2SF (abs x) = S754_zero false.
Proof. intros H. now rewrite abs_spec, H. Qed.


(** *** The methods *)

Lemma Rforce_defined (P : Double.Potential) (args : Double.Args)
    (r : Double.raw) :
  Double._Rforce (Double.variant P) = Some r ->
  Double.Rforce P args = Ok (Double._amp P * r args).
Proof. intros H. unfold Double.Rforce. now rewrite H. Qed.

Lemma Rforce_missing (P : Double.Potential) (args : Double.Args) :
  Double._Rforce (Double.variant P) = None ->
  Double.Rforce P args =
    Raise (PotentialError
      "'_Rforce' function not implemented for this potential").
Proof. intros H. unfold Double.Rforce. now rewrite H. Qed.

Lemma Rforce_inv (P : Double.Potential) (args : Double.Args) (F : float) :
  Double.Rforce P args = Ok F ->
  exists r : Double.raw,
    Double._Rforce (Double.variant P) = Some r /\
    F = Double._amp P * r args.
Proof.
  unfold Double.Rforce.
  destruct (Double._Rforce (Double.variant P)) as [r | ]; simpl; intros H.
  - exists r. split; [ reflexivity | congruence ].
  - discriminate H.
Qed.

(** The conversion of [norm] can only fail with [OverflowError], and only
    for an integer. *)
Lemma to_float_raises (norm : Double.pynumber) (e : exn) :
  Double.to_float norm = Raise e ->
  e = OverflowError /\ exists n : Z, norm = Double.PyInt n.
Proof.
  destruct norm as [[ | ] | n | x]; simpl; try discriminate.
  unfold Double.float_of_int.
  destruct (binary_normalize prec emax n 0 false); try discriminate.
  intros H. injection H as <-. split; [ reflexivity | now exists n ].
Qed.

(** [normalize] on a subclass that defines [_Rforce]. *)
Lemma normalize_defined (P : Double.Potential) (norm : Double.pynumber)
    (r : Double.raw) :
  Double._Rforce (Double.variant P) = Some r ->
  Double.normalize P norm =
  match Double.to_float norm with
  | Ok f =>
      Ok
        (Double.set_amp P
           (Double._amp P *
            (f / abs (Double._amp P * r Double.ref_point))))
  | Raise e => Raise e
  end.
Proof.
  intros H. unfold Double.normalize.
  rewrite (Rforce_defined P Double.ref_point r H). simpl.
  destruct (Double.to_float norm); reflexivity.
Qed.





(** *** Products and quotients with a zero *)

(** A finite double times a zero is a zero. *)
Lemma mul_finite_zero (x y : float) (s : bool) :
  is_finite x = true -> Prim2SF y = S754_zero s ->
  exists t, Prim2SF (x * y) = S754_zero t.
Proof.
  intros Hx Hy. rewrite mul_spec, Hy.
  destruct (finite_inv x Hx) as [[sx E] | (sx & mx & ex & E)]; rewrite E;
    eexists; reflexivity.
Qed.

(** A zero times a finite double is a zero. *)
Lemma mul_zero_finite (x y : float) (s : bool) :
  Prim2SF x = S754_zero s -> is_finite y = true ->
  exists t, Prim2SF (x * y) = S754_zero t.
Proof.
  intros Hx Hy. rewrite mul_spec, Hx.
  destruct (finite_inv y Hy) as [[sy E] | (sy & my & ey & E)]; rewrite E;
    eexists; reflexivity.
Qed.

(** A zero divided by a finite nonzero double is a zero. *)
Lemma div_zero_finite (x y : float) (s sy : bool) (my : positive) (ey : Z) :
  Prim2SF x = S754_zero s -> Prim2SF y = S754_finite sy my ey ->
  exists t, Prim2SF (x / y) = S754_zero t.
Proof.
  intros Hx Hy. rewrite div_spec, Hx, Hy. eexists; reflexivity.
Qed.

Lemma abs_finite (x : float) (s : bool) (m : positive) (e : Z) :
  Prim2SF x = S754_finite s m e ->
  Prim2SF (abs x) = S754_finite false m e.
Proof. intros H. now rewrite abs_spec, H. Qed.

(** C8, as the code has it.  [normalize] has no test of the reference
    force.  It raises [PotentialError] when the subclass has no [_Rforce];
    with [_Rforce] defined it raises only the [OverflowError] of an
    integer [norm] too large for a double, and otherwise returns with the
    amplitude [old * (norm / |F|)].  When the radial force [F] at
    [(R=1, z=0)] is a zero the division is carried out and the amplitude
    stored is not finite.  The constructor stores any amplitude it is
    given. *)
Theorem normalize_zero_reference_force (P : Double.Potential)
    (norm : Double.pynumber) :
  (Double._Rforce (Double.variant P) = None ->
   Double.normalize P norm =
     Raise (PotentialError
       "'_Rforce' function not implemented for this potential")) /\
  (forall r : Double.raw,
     Double._Rforce (Double.variant P) = Some r ->
     Double.normalize P norm =
     match Double.to_float norm with
     | Ok f =>
         Ok
           (Double.set_amp P
              (Double._amp P *
               (f / abs (Double._amp P * r Double.ref_point))))
     | Raise e => Raise e
     end) /\
  (forall e : exn,
     Double.to_float norm = Raise e ->
     e = OverflowError /\ exists n : Z, norm = Double.PyInt n) /\
  (forall F f : float,
     Double.Rforce P Double.ref_point = Ok F ->
     is_zero F = true ->
     Double.to_float norm = Ok f ->
     exists P' : Double.Potential,
       Double.normalize P norm = Ok P' /\
       Double.variant P' = Double.variant P /\
       is_finite (Double._amp P') = false) /\
  (forall (v : Double.Variant) (a : float),
     Double._amp (Double.__init__ v (Some a)) = a).
Proof.
  split; [ | split; [ | split; [ | split ] ] ].
  - intros H. unfold Double.normalize.
    now rewrite (Rforce_missing P Double.ref_point H).
  - intros r H. now apply normalize_defined.
  - intros e. apply to_float_raises.
  - intros F f HF HZ Hf.
    destruct (Rforce_inv P Double.ref_point F HF) as (r & Hr & ->).
    exists (Double.set_amp P
              (Double._amp P *
               (f / abs (Double._amp P * r Double.ref_point)))).
    split; [ | split ].
    + rewrite (normalize_defined P norm r Hr), Hf. reflexivity.
    + reflexivity.
    + simpl. apply mul_nonfinite_r.
      destruct (is_zero_inv _ HZ) as [s Hs].
      apply (div_by_zero f _ false). exact (abs_zero _ s Hs).
  - reflexivity.
Qed.

Lemma normalize_zero_reference_force_witness :
  Double.normalize (Double.__init__ Double.bare None) (Double.PyFloat 1) =
    Raise (PotentialError
      "'_Rforce' function not implemented for this potential") /\
  (exists P' : Double.Potential,
     Double.normalize (Double.__init__ Double.constant_potential None)
       (Double.PyInt 3) = Ok P' /\
     Double.variant P' = Double.constant_potential /\
     is_finite (Double._amp P') = false).
Proof.
  split.
  - destruct (normalize_zero_reference_force
                (Double.__init__ Double.bare None) (Double.PyFloat 1))
      as [H _].
    exact (H eq_refl).
  - destruct (normalize_zero_reference_force
                (Double.__init__ Double.constant_potential None)
                (Double.PyInt 3)) as (_ & _ & _ & H & _).
    exact (H 0 3 eq_refl eq_refl eq_refl).
Defined.

(** C8, the claim as stated fails.  A constant potential has the radial
    force 0. at the reference point; [normalize(1.)] raises nothing and
    stores the amplitude [inf].  An integer [norm] of 2**1024 raises
    [OverflowError], not [PotentialError].  The amplitude does not stay
    finite under a nonzero reference force either: a point mass of
    amplitude 5e-324 normalized to 1. ends with the amplitude [inf]. *)
Lemma normalize_zero_force_counterexample :
  Double.Rforce (Double.__init__ Double.constant_potential None)
    Double.ref_point = Ok 0 /\
  Double.normalize (Double.__init__ Double.constant_potential None)
    (Double.PyFloat 1) =
    Ok
      (Double.set_amp (Double.__init__ Double.constant_potential None)
         infinity) /\
  is_finite infinity = false /\
  Double.normalize (Double.__init__ Double.constant_potential None)
    (Double.PyInt (2 ^ 1024)) = Raise OverflowError /\
  Double.Rforce (Double.__init__ Double.point_mass (Some 0x1p-1074))
    Double.ref_point = Ok (-0x1p-1074) /\
  is_zero (-0x1p-1074) = false /\
  Double.normalize (Double.__init__ Double.point_mass (Some 0x1p-1074))
    (Double.PyFloat 1) =
    Ok
      (Double.set_amp (Double.__init__ Double.point_mass (Some 0x1p-1074))
         infinity).
Proof. repeat split; vm_compute; reflexivity. Qed.

(** C6, as the code has it.  A subclass without [_phiforce] inherits
    [Potential._phiforce], which returns 0.; [phiforce] never raises and
    returns the amplitude times 0.: a zero when the amplitude is finite,
    [nan] when it is [inf] or [nan].  [phiforce] returns for every
    Potential; the other four operations raise [PotentialError] when
    their raw function is missing. *)
Theorem phiforce_default_zero (P : Double.Potential) (args : Double.Args) :
  Double._phiforce (Double.variant P) = None ->
  Double.phiforce P args = Ok (Double._amp P * 0) /\
  (is_finite (Double._amp P) = true ->
   is_zero (Double._amp P * 0) = true) /\
  (is_finite (Double._amp P) = false ->
   is_nan (Double._amp P * 0) = true) /\
  (forall (Q : Double.Potential) (a : Double.Args),
     exists v : float, Double.phiforce Q a = Ok v) /\
  (Double._evaluate (Double.variant P) = None ->
   Double.__call__ P args =
     Raise (PotentialError
       "'_evaluate' function not implemented for this potential")) /\
  (Double._Rforce (Double.variant P) = None ->
   Double.Rforce P args =
     Raise (PotentialError
       "'_Rforce' function not implemented for this potential")) /\
  (Double._zforce (Double.variant P) = None ->
   Double.zforce P args =
     Raise (PotentialError
       "'_zforce' function not implemented for this potential")) /\
  (Double._dens (Double.variant P) = None ->
   Double.dens P args =
     Raise (PotentialError
       "'_dens' function not implemented for this potential")).
Proof.
  intros H.
  split; [ | split; [ | split; [ | split; [ | split; [ | split; [ | split ] ] ] ] ] ].
  - unfold Double.phiforce, Double.getattr__phiforce. now rewrite H.
  - intros Hf.
    destruct (mul_finite_zero (Double._amp P) 0 false Hf eq_refl) as [t Ht].
    exact (is_zero_intro _ t Ht).
  - intros Hf. apply is_nan_intro. rewrite mul_spec.
    destruct (nonfinite_inv _ Hf) as [[t Ht] | Ht]; rewrite Ht; reflexivity.
  - intros Q a. unfold Double.phiforce, Double.getattr__phiforce.
    destruct (Double._phiforce (Double.variant Q)); eexists; reflexivity.
  - intros E. unfold Double.__call__. now rewrite E.
  - intros E. unfold Double.Rforce. now rewrite E.
  - intros E. unfold Double.zforce. now rewrite E.
  - intros E. unfold Double.dens. now rewrite E.
Qed.

Lemma phiforce_default_zero_witness :
  Double.phiforce (Double.__init__ Double.point_mass (Some 2))
    (Double.mkArgs 1 0 (Some 0.5)) = Ok 0 /\
  Double.dens (Double.__init__ Double.point_mass (Some 2))
    (Double.mkArgs 1 0 (Some 0.5)) =
    Raise (PotentialError
      "'_dens' function not implemented for this potential").
Proof.
  destruct (phiforce_default_zero
              (Double.__init__ Double.point_mass (Some 2))
              (Double.mkArgs 1 0 (Some 0.5)) eq_refl)
    as (H1 & _ & _ & _ & _ & _ & _ & H2).
  split; [ exact H1 | exact (H2 eq_refl) ].
Defined.

(** C6, the claim as stated fails.  The constant potential has no
    [_phiforce]; [normalize(1.)] leaves it with the amplitude [inf], and
    its azimuthal force is then [inf*0.], which is [nan], not 0. *)
Lemma phiforce_nonfinite_counterexample :
  Double._phiforce Double.constant_potential = None /\
  Double.normalize (Double.__init__ Double.constant_potential None)
    (Double.PyFloat 1) =
    Ok
      (Double.set_amp (Double.__init__ Double.constant_potential None)
         infinity) /\
  Double.phiforce
    (Double.set_amp (Double.__init__ Double.constant_potential None)
       infinity)
    (Double.mkArgs 1 0 (Some 0)) = Ok nan /\
  is_nan nan = true /\ (nan =? 0) = false /\
  Double.phiforce (Double.__init__ Double.constant_potential (Some nan))
    (Double.mkArgs 1 0 (Some 0)) = Ok nan.
Proof. repeat split; vm_compute; reflexivity. Qed.

(** X4.  [normalize] with a zero target cannot be undone.  On a
    Potential whose reference force is finite and not zero it stores a
    zero amplitude; every later [normalize] then divides by a zero
    reference force: it stores the amplitude [nan] whatever the target,
    unless the target is an integer too large for a double, which raises
    [OverflowError] and stores nothing. *)
Theorem normalize_zero_is_final (P P0 : Double.Potential)
    (norm : Double.pynumber) (F f0 : float) :
  Double.Rforce P Double.ref_point = Ok F ->
  is_finite F = true -> is_zero F = false ->
  Double.to_float norm = Ok f0 -> is_zero f0 = true ->
  Double.normalize P norm = Ok P0 ->
  is_zero (Double._amp P0) = true /\
  forall g : Double.pynumber,
    match Double.to_float g with
    | Ok _ =>
        exists P1 : Double.Potential,
          Double.normalize P0 g = Ok P1 /\
          is_nan (Double._amp P1) = true
    | Raise e => Double.normalize P0 g = Raise e
    end.
Proof.
  intros HF Hfin Hnz Hf0 Hz0 HN.
  destruct (Rforce_inv P Double.ref_point F HF) as (r & Hr & ->).
  rewrite (normalize_defined P norm r Hr), Hf0 in HN.
  injection HN as <-.
  destruct (finite_nonzero_inv _ Hfin Hnz) as (s & m & e & HFs).
  destruct (mul_finite_inv _ _ s m e HFs)
    as [(sa & ma & ea & Ha) (sr & mr & er & Hrr)].
  destruct (is_zero_inv f0 Hz0) as [s0 Hs0].
  destruct (div_zero_finite f0 _ s0 false m e Hs0 (abs_finite _ s m e HFs))
    as [t Ht].
  destruct (mul_finite_zero (Double._amp P) _ t
              (is_finite_finite _ sa ma ea Ha) Ht) as [u Hu].
  split.
  - simpl. exact (is_zero_intro _ u Hu).
  - intros g.
    rewrite (normalize_defined (Double.set_amp P _) g r Hr).
    destruct (Double.to_float g) as [gf | e']; [ | reflexivity ].
    eexists. split; [ reflexivity | ].
    simpl.
    destruct (mul_zero_finite _ (r Double.ref_point) u Hu
                (is_finite_finite _ sr mr er Hrr)) as [w Hw].
    apply (mul_zero_nonfinite _ _ u Hu).
    apply (div_by_zero gf _ false). exact (abs_zero _ w Hw).
Qed.

Lemma normalize_zero_is_final_witness :
  is_zero 0 = true /\
  (exists P1 : Double.Potential,
     Double.normalize
       (Double.set_amp (Double.__init__ Double.point_mass (Some 2)) 0)
       (Double.PyFloat 1) = Ok P1 /\
     is_nan (Double._amp P1) = true) /\
  Double.normalize
    (Double.set_amp (Double.__init__ Double.point_mass (Some 2)) 0)
    (Double.PyInt (2 ^ 1024)) = Raise OverflowError.
Proof.
  destruct (normalize_zero_is_final
              (Double.__init__ Double.point_mass (Some 2))
              (Double.set_amp (Double.__init__ Double.point_mass (Some 2)) 0)
              (Double.PyBool false) (-2) 0
              eq_refl eq_refl eq_refl eq_refl eq_refl eq_refl) as [H1 H2].
  split; [ exact H1 | split ].
  - exact (H2 (Double.PyFloat 1)).
  - exact (H2 (Double.PyInt (2 ^ 1024))).
Defined.

End DoubleFacts.
